(** * MedAgent: the resilient API access layer

    A shallow embedding of [utils/retry_handler.py], [utils/rate_limiter.py]
    and [tools/base_tool.py] (with the parts of [config/settings.py] and
    [utils/logger.py] they read), followed by the properties of the access
    layer.

    Conventions of the embedding
    - Python [int] is [Z]; Python [float] (clock readings, token counts,
      backoff delays) is idealised as the rationals [Q], so rounding is not
      modelled;
    - [Optional[T]] arguments are [option T]; a value of type [Any] is a
      [value], which has its own [VNone];
    - a [dict] used as a store is a [gmap]; a keyword dictionary, whose
      insertion order matters to the cache key, is an association list with
      distinct keys, none of them the name of a positional parameter of the
      function it is passed to (Python rejects such a call before the body
      runs);
    - code that reads the clock, sleeps, draws random numbers, logs or calls
      the network runs in the monad [M] over the record [World]; a raised
      exception is the [Raise] result;
    - [exn] ranges over the instances of [Exception], which is what
      [except Exception] catches; signals that derive from [BaseException]
      only ([KeyboardInterrupt], [SystemExit]) are not modelled;
    - the clock moves when the code sleeps, while an operation runs, and
      between calls; two readings with nothing in between are equal. *)

From Stdlib Require Import QArith Qround Lqa Ascii.
From stdpp Require Import base numbers list strings gmap sorting pretty.

Local Open Scope Z_scope.

(** ** config/settings.py *)

Module Settings.

(** The fields of [Settings] the access layer reads. *)
Record t := {
  MAX_RETRIES : Z;
  RETRY_BACKOFF_BASE : Z;
  RETRY_BACKOFF_MAX : Z;
  API_TIMEOUT : Z;
  CACHE_TTL : Z;
  ENABLE_CACHE : bool
}.

(** The [Field(default=...)] values. *)
Definition default : t := {|
  MAX_RETRIES := 3;
  RETRY_BACKOFF_BASE := 2;
  RETRY_BACKOFF_MAX := 60;
  API_TIMEOUT := 30;
  CACHE_TTL := 3600;
  ENABLE_CACHE := true
|}.

Definition with_cache (enabled : bool) (s : t) : t := {|
  MAX_RETRIES := MAX_RETRIES s;
  RETRY_BACKOFF_BASE := RETRY_BACKOFF_BASE s;
  RETRY_BACKOFF_MAX := RETRY_BACKOFF_MAX s;
  API_TIMEOUT := API_TIMEOUT s;
  CACHE_TTL := CACHE_TTL s;
  ENABLE_CACHE := enabled
|}.

End Settings.

(** ** The fragment of Python the code relies on *)

Module Py.

(** Values of type [Any]: raw responses, parsed results, metadata
    entries.  [VTimestamp t] stands for the string
    [datetime.utcnow().isoformat() + "Z"] taken when the clock reads [t]. *)
#[local] Unset Elimination Schemes.
Inductive value :=
| VNone
| VBool (b : bool)
| VInt (n : Z)
| VStr (s : string)
| VTimestamp (t : Q)
| VList (items : list value)
| VDict (fields : list (string * value)).
#[local] Set Elimination Schemes.

(** [x is not None] *)
Definition is_not_None (v : value) : bool :=
  match v with VNone => false | _ => true end.

(** Keyword-argument values: the scalars a query parameter can be. *)
Inductive scalar :=
| SNone
| SBool (b : bool)
| SInt (n : Z)
| SStr (s : string).

(** [str(v)], which is what [f"{v}"] renders. *)
Definition str (v : scalar) : string :=
  match v with
  | SNone => "None"
  | SBool true => "True"
  | SBool false => "False"
  | SInt n => pretty n
  | SStr s => s
  end.

(** [x or d] for an [Optional[int]]: [None] and [0] are both falsy. *)
Definition or_int (x : option Z) (d : Z) : Z :=
  match x with
  | Some n => if n =? 0 then d else n
  | None => d
  end.

(** [x or d] for an optional float. *)
Definition or_float (x : option Q) (d : Q) : Q :=
  match x with
  | Some q => if Qeq_bool q 0 then d else q
  | None => d
  end.

(** [min(a, b)] on floats: the first argument wins ties. *)
Definition min (a b : Q) : Q :=
  if Qle_bool a b then a else b.

(** [int(x)] on a float truncates towards zero. *)
Definition int (x : Q) : Z := Z.quot (Qnum x) (Zpos (Qden x)).

(** [range(n)] *)
Definition range (n : Z) : list Z :=
  (λ i : nat, Z.of_nat i) <$> seq 0 (Z.to_nat n).

(** The exception classes the retry logic distinguishes.  In
    [requests.exceptions], [ConnectionError], [Timeout] and [HTTPError]
    all derive from [RequestException]; [OtherException] is any class
    outside that family (ValueError, KeyError, ...). *)
Inductive exc_class :=
| ConnectionError
| Timeout
| HTTPError
| RequestException
| OtherException.

Global Instance exc_class_eq_dec : EqDecision exc_class.
Proof. solve_decision. Defined.

(** [issubclass(c, d)] *)
Definition issubclass (c d : exc_class) : bool :=
  match d with
  | RequestException =>
      match c with OtherException => false | _ => true end
  | _ => bool_decide (c = d)
  end.

(** An instance of [Exception]: its class, [type(e).__name__],
    [str(e)], and the status code of [e.response] when the attribute is
    present and not [None]. *)
Record exn := {
  exc_cls : exc_class;
  exc_name : string;
  exc_str : string;
  exc_status : option Z
}.

(** [isinstance(e, classes)] for a tuple of classes. *)
Definition isinstance (e : exn) (classes : list exc_class) : bool :=
  existsb (issubclass (exc_cls e)) classes.

(** The outcome of evaluating a call. *)
Inductive result (A : Type) :=
| Return (a : A)
| Raise (e : exn).
Global Arguments Return {A} a.
Global Arguments Raise {A} e.

(** What [raise None] raises. *)
Definition raise_None_error : exn := {|
  exc_cls := OtherException;
  exc_name := "TypeError";
  exc_str := "exceptions must derive from BaseException";
  exc_status := None
|}.

(** What [time.sleep] raises on a negative argument. *)
Definition sleep_error : exn := {|
  exc_cls := OtherException;
  exc_name := "ValueError";
  exc_str := "sleep length must be non-negative";
  exc_status := None
|}.

End Py.

Import Py.

(** ** utils/rate_limiter.py *)

Module RateLimiter.

(** [TokenBucket]; the lock only serialises [consume] and is not part of
    the sequential state. *)
Record TokenBucket := {
  rate : Q;
  capacity : Q;
  tokens : Q;
  last_update : Q
}.

(** [TokenBucket.__init__], run when the clock reads [now]. *)
Definition init (rate : Q) (capacity : option Q) (now : Q) : TokenBucket :=
  let capacity := Py.or_float capacity rate in
  {| rate := rate;
     capacity := capacity;
     tokens := capacity;
     last_update := now |}.

(** The refill at the start of [consume]. *)
Definition refill (self : TokenBucket) (now : Q) : TokenBucket :=
  let elapsed := (now - last_update self)%Q in
  {| rate := rate self;
     capacity := capacity self;
     tokens := Py.min (capacity self) (tokens self + elapsed * rate self)%Q;
     last_update := now |}.

(** [TokenBucket.consume(tokens)], run when the clock reads [now]: the
    answer and the bucket afterwards. *)
Definition consume (self : TokenBucket) (n : Z) (now : Q)
  : bool * TokenBucket :=
  let self := refill self now in
  if Qle_bool (inject_Z n) (tokens self) then
    (true, {| rate := rate self;
              capacity := capacity self;
              tokens := (tokens self - inject_Z n)%Q;
              last_update := last_update self |})
  else (false, self).

(** The poll interval of [wait_for_token]. *)
Definition poll_interval : Q := 1 # 10.

(** [TokenBucket.wait_for_token(tokens)]: [while not self.consume(tokens):
    time.sleep(0.1)].  [fuel] bounds the number of polls; the result is
    whether the tokens were obtained within them, the bucket and the clock
    reached. *)
Fixpoint wait_for_token (fuel : nat) (self : TokenBucket) (n : Z) (now : Q)
  : bool * TokenBucket * Q :=
  match fuel with
  | O => (false, self, now)
  | S fuel =>
      let '(ok, self) := consume self n now in
      if ok then (true, self, now)
      else wait_for_token fuel self n (now + poll_interval)%Q
  end.

(** The states a bucket goes through during [wait_for_token], one per
    poll. *)
Fixpoint wait_trace (fuel : nat) (self : TokenBucket) (n : Z) (now : Q)
  : list TokenBucket :=
  match fuel with
  | O => []
  | S fuel =>
      let '(ok, self) := consume self n now in
      self :: (if ok then []
               else wait_trace fuel self n (now + poll_interval)%Q)
  end.

(** The two operations on a bucket. *)
Inductive bucket_op :=
| Consume (n : Z)
| WaitForToken (fuel : nat) (n : Z).

Definition amount (op : bucket_op) : Z :=
  match op with
  | Consume n => n
  | WaitForToken _ n => n
  end.

(** A sequence of operations on one bucket, each started [delay] seconds
    after the previous one finished; [now] is the clock at the start.
    The result lists the state of the bucket after every [consume] that
    ran, those inside [wait_for_token] included. *)
Fixpoint bucket_run (self : TokenBucket) (now : Q)
    (ops : list (Q * bucket_op)) : list TokenBucket :=
  match ops with
  | [] => []
  | (delay, op) :: ops =>
      let now := (now + delay)%Q in
      match op with
      | Consume n =>
          let self := snd (consume self n now) in
          self :: bucket_run self now ops
      | WaitForToken fuel n =>
          let '(_, self', now') := wait_for_token fuel self n now in
          wait_trace fuel self n now ++ bucket_run self' now' ops
      end
  end.

(** [RateLimiter.buckets]: the registry maps a key to its bucket.  The
    buckets are shared objects, so consuming from the bucket of a key
    updates the registry entry. *)
Abbreviation registry := (gmap string TokenBucket).

(** [RateLimiter.get_bucket(key, rate)] *)
Definition get_bucket (buckets : registry) (key : string) (rate : Q)
    (now : Q) : TokenBucket * registry :=
  match buckets !! key with
  | Some b => (b, buckets)
  | None =>
      let b := init rate None now in
      (b, <[key := b]> buckets)
  end.

(** [RateLimiter.wait(key, rate, tokens)]: whether the tokens were
    obtained within [fuel] polls, the registry and the clock reached. *)
Definition wait (fuel : nat) (buckets : registry) (key : string)
    (rate : Q) (n : Z) (now : Q) : bool * registry * Q :=
  let '(bucket, buckets) := get_bucket buckets key rate now in
  let '(ok, bucket) := consume bucket n now in
  if ok then (true, <[key := bucket]> buckets, now)
  else
    let '(ok, bucket, now) := wait_for_token fuel bucket n now in
    (ok, <[key := bucket]> buckets, now).

(** The invariant of a bucket. *)
Definition within_capacity (b : TokenBucket) : Prop :=
  (0 <= tokens b)%Q ∧ (tokens b <= capacity b)%Q.

(** A bucket that refills, is within its capacity, and was last updated
    no later than the clock reading [now]. *)
Definition sane (b : TokenBucket) (now : Q) : Prop :=
  (0 <= rate b)%Q ∧ within_capacity b ∧ (last_update b <= now)%Q.

End RateLimiter.

(** ** The world the code runs in *)

(** What a network operation can observe and change: the clock, the
    process-wide rate limiter, and the state [remote] of the outside
    service. *)
Record Env (R : Type) := {
  now : Q;
  limiter : RateLimiter.registry;
  remote : R
}.
Global Arguments now {R} _.
Global Arguments limiter {R} _.
Global Arguments remote {R} _.

(** A network operation: a call that returns or raises, and changes the
    environment. *)
Definition operation (R A : Type) : Type := Env R → result A * Env R.

(** [rate_limit(key, rate)] applied to [func]: the wrapper waits for one
    token and then calls [func].  The result is [None] when the wait has not
    ended within [fuel] polls. *)
Definition rate_limit {R A} (fuel : nat) (key : string) (rate : Q)
    (func : operation R A) (e : Env R) : option (result A * Env R) :=
  let '(ok, buckets, t) :=
    RateLimiter.wait fuel (limiter e) key rate 1 (now e) in
  if ok then
    Some (func {| now := t; limiter := buckets; remote := remote e |})
  else None.

(** A record of [log_tool_call]. *)
Record LogRecord := {
  log_tool_name : string;
  log_query : string;
  log_latency_ms : Z;
  log_status : string;
  log_error : option string;
  log_cached : option bool
}.

(** The state around one tool: its environment, its [cache] dictionary
    [{cache_key: (timestamp, data)}], the log, the source of
    [random.random()] ([rng k] is the [k]-th draw), and two counters kept
    for the statements: [calls] counts the invocations of the wrapped
    operation, [sleeps] lists the arguments of [time.sleep] in call order,
    latest first. *)
Record World (R : Type) := {
  env : Env R;
  cache : gmap string (Q * value);
  log : list LogRecord;
  rng : nat → Q;
  draws : nat;
  calls : nat;
  sleeps : list Q
}.
Global Arguments env {R} _.
Global Arguments cache {R} _.
Global Arguments log {R} _.
Global Arguments rng {R} _.
Global Arguments draws {R} _.
Global Arguments calls {R} _.
Global Arguments sleeps {R} _.

(** Computations over the world that may raise. *)
Definition M (R A : Type) : Type := World R → result A * World R.

Global Instance M_ret {R} : MRet (M R) := λ A a w, (Return a, w).

Global Instance M_bind {R} : MBind (M R) := λ A B f c w,
  match c w with
  | (Return a, w) => f a w
  | (Raise e, w) => (Raise e, w)
  end.

Section Effects.
Context {R : Type}.

(** [raise e] *)
Definition raise {A} (e : exn) : M R A := λ w, (Raise e, w).

(** [try: body  except Exception as e: handler(e)] *)
Definition try_except {A} (body : M R A) (handler : exn → M R A) : M R A :=
  λ w,
    match body w with
    | (Return a, w) => (Return a, w)
    | (Raise e, w) => handler e w
    end.

Definition set_env (e : Env R) (w : World R) : World R :=
  {| env := e; cache := cache w; log := log w; rng := rng w;
     draws := draws w; calls := calls w; sleeps := sleeps w |}.

Definition set_cache (c : gmap string (Q * value)) (w : World R) : World R :=
  {| env := env w; cache := c; log := log w; rng := rng w;
     draws := draws w; calls := calls w; sleeps := sleeps w |}.

(** [time.time()] *)
Definition time_time : M R Q := λ w, (Return (now (env w)), w).

(** [time.sleep(d)]: the clock advances by [d]. *)
Definition time_sleep (d : Q) : M R unit := λ w,
  if Qle_bool 0 d then
    (Return (),
     {| env := {| now := (now (env w) + d)%Q;
                  limiter := limiter (env w);
                  remote := remote (env w) |};
        cache := cache w; log := log w; rng := rng w;
        draws := draws w; calls := calls w; sleeps := d :: sleeps w |})
  else (Raise Py.sleep_error, w).

(** [random.random()] *)
Definition random_random : M R Q := λ w,
  (Return (rng w (draws w)),
   {| env := env w; cache := cache w; log := log w; rng := rng w;
      draws := S (draws w); calls := calls w; sleeps := sleeps w |}).

(** Calling the wrapped operation: the call of [func] with its arguments. *)
Definition invoke {A} (func : operation R A) : M R A := λ w,
  let '(r, e) := func (env w) in
  (r, {| env := e; cache := cache w; log := log w; rng := rng w;
         draws := draws w; calls := S (calls w); sleeps := sleeps w |}).

(** [logger.log(level, message, extra=extra)] of [log_tool_call] *)
Definition emit (r : LogRecord) : M R unit := λ w,
  (Return (),
   {| env := env w; cache := cache w; log := r :: log w; rng := rng w;
      draws := draws w; calls := calls w; sleeps := sleeps w |}).

End Effects.

(** ** utils/retry_handler.py *)

Module RetryHandler.

(** HTTP status codes that should trigger a retry. *)
Definition RETRYABLE_STATUS_CODES : gset Z :=
  {[ 429; 500; 502; 503; 504 ]}.

(** HTTP status codes that should not trigger a retry. *)
Definition NON_RETRYABLE_STATUS_CODES : gset Z :=
  {[ 400; 401; 403; 404; 405; 422 ]}.

(** [min(base ** attempt, max_backoff)], the backoff before jitter, after
    the two defaults have been filled in.  [attempt] is an index of
    [range], so it is not negative. *)
Definition ideal_backoff (cfg : Settings.t) (attempt : Z)
    (base max_backoff : option Z) : Z :=
  let base := Py.or_int base (Settings.RETRY_BACKOFF_BASE cfg) in
  let max_backoff := Py.or_int max_backoff (Settings.RETRY_BACKOFF_MAX cfg) in
  Z.min (base ^ attempt) max_backoff.

(** The jitter factor [0.5 + random.random() * 0.5] for a draw [r]. *)
Definition jitter_factor (r : Q) : Q := ((1 # 2) + r * (1 # 2))%Q.

(** [calculate_backoff(attempt, base, max_backoff, jitter)] *)
Definition calculate_backoff {R} (cfg : Settings.t) (attempt : Z)
    (base max_backoff : option Z) (jitter : bool) : M R Q :=
  let backoff := inject_Z (ideal_backoff cfg attempt base max_backoff) in
  if jitter then
    r ← random_random;
    mret (backoff * jitter_factor r)%Q
  else mret backoff.

(** [is_retryable_error(exception)] *)
Definition is_retryable_error (exception : exn) : bool :=
  if Py.isinstance exception [ConnectionError; Timeout] then true
  else if Py.isinstance exception [RequestException] then
    match exc_status exception with
    | Some status_code =>
        bool_decide (status_code ∈ RETRYABLE_STATUS_CODES)
    | None => false
    end
  else false.

(** The default of [retryable_exceptions]. *)
Definition default_retryable_exceptions : list exc_class :=
  [ConnectionError; Timeout; RequestException].

(** The [for attempt in range(max_retries + 1)] loop of [wrapper], over
    the attempts still to run, and the [raise last_exception] after it.
    [max_retries] and [backoff_base] are the values after defaulting. *)
Fixpoint retry_loop {R A} (cfg : Settings.t) (max_retries backoff_base : Z)
    (retryable_exceptions : list exc_class) (func : operation R A)
    (attempts : list Z) (last_exception : option exn) : M R A :=
  match attempts with
  | [] =>
      match last_exception with
      | Some e => raise e
      | None => raise Py.raise_None_error
      end
  | attempt :: attempts =>
      λ w,
        match invoke func w with
        | (Return result, w) => (Return result, w)
        | (Raise e, w) =>
            if Py.isinstance e retryable_exceptions then
              if negb (is_retryable_error e) then (Raise e, w)
              else
                (_ ← (if attempt <? max_retries then
                        backoff ← calculate_backoff cfg attempt
                                    (Some backoff_base) None true;
                        time_sleep backoff
                      else mret ());
                 retry_loop cfg max_retries backoff_base
                   retryable_exceptions func attempts (Some e)) w
            else (Raise e, w)
        end
  end.

(** [retry_on_failure(max_retries, backoff_base, retryable_exceptions)]
    applied to [func]: the decorated function. *)
Definition retry_on_failure {R A} (cfg : Settings.t)
    (max_retries backoff_base : option Z)
    (retryable_exceptions : list exc_class)
    (func : operation R A) : M R A :=
  let max_retries := Py.or_int max_retries (Settings.MAX_RETRIES cfg) in
  let backoff_base :=
    Py.or_int backoff_base (Settings.RETRY_BACKOFF_BASE cfg) in
  retry_loop cfg max_retries backoff_base retryable_exceptions func
    (Py.range (max_retries + 1)) None.

End RetryHandler.

(** ** tools/base_tool.py *)

Module BaseTool.

(** [ToolResult] *)
Record ToolResult := {
  success : bool;
  data : value;
  metadata : option (gmap string value);
  error : option string
}.

(** What an adapter supplies: its [name] and its [parse_results]. *)
Record t := {
  name : string;
  parse_results : value → result value
}.

(** The order [sorted] puts the items of a keyword dictionary in.  Items
    are compared as tuples, key first; the keys of a dictionary are
    distinct, so the comparison never reaches the values. *)
Definition item_le (p q : string * scalar) : Prop := String.le p.1 q.1.

Global Instance item_le_dec : RelDecision item_le.
Proof. intros p q. unfold item_le. apply _. Defined.

(** [sorted(params.items())] *)
Definition sorted (params : list (string * scalar))
  : list (string * scalar) :=
  merge_sort item_le params.

(** [f"{k}={v}"] *)
Definition render_item (kv : string * scalar) : string :=
  kv.1 +:+ "=" +:+ Py.str kv.2.

(** [BaseTool._get_cache_key(method, **params)] *)
Definition _get_cache_key (method : string)
    (params : list (string * scalar)) : string :=
  let param_str := String.concat "&" (render_item <$> sorted params) in
  method +:+ ":" +:+ param_str.

(** Whether the character [c] occurs in [s]. *)
Fixpoint has_char (c : ascii) (s : string) : bool :=
  match s with
  | EmptyString => false
  | String a s => Ascii.eqb a c || has_char c s
  end.

(** The text a parameter value contributes to the key. *)
Definition rendering (kv : string * scalar) : string := Py.str kv.2.

(** Parameter values whose text has no ["&"] in it. *)
Definition separator_free (params : list (string * scalar)) : Prop :=
  Forall (λ kv, has_char "&" (Py.str kv.2) = false) params.

(** [a < b] on floats. *)
Definition Qltb (a b : Q) : bool := negb (Qle_bool b a).

Section Methods.
Context {R : Type}.
Variable cfg : Settings.t.
Variable self : t.

(** Whether an entry stored at [timestamp] is still served when the
    clock reads [t]: [t - timestamp < settings.CACHE_TTL]. *)
Definition fresh (t timestamp : Q) : bool :=
  Qltb (t - timestamp) (inject_Z (Settings.CACHE_TTL cfg)).

(** [BaseTool._get_from_cache(cache_key)] *)
Definition _get_from_cache (cache_key : string) : M R value :=
  if negb (Settings.ENABLE_CACHE cfg) then mret VNone
  else λ w,
    match cache w !! cache_key with
    | Some (timestamp, data) =>
        if fresh (now (env w)) timestamp then (Return data, w)
        else (Return VNone, set_cache (delete cache_key (cache w)) w)
    | None => (Return VNone, w)
    end.

(** [BaseTool._save_to_cache(cache_key, data)] *)
Definition _save_to_cache (cache_key : string) (data : value)
  : M R unit :=
  if Settings.ENABLE_CACHE cfg then
    λ w, (Return (),
          set_cache (<[cache_key := (now (env w), data)]> (cache w)) w)
  else mret ().

(** [BaseTool.handle_errors(error)] *)
Definition handle_errors (error : exn) : string :=
  let error_type := exc_name error in
  let error_msg := exc_str error in
  if String.eqb error_type "ConnectionError" then
    "Failed to connect to API. Please check your internet connection."
  else if String.eqb error_type "Timeout" then
    "API request timed out. Please try again."
  else if String.eqb error_type "HTTPError" then
    "API returned an error: " +:+ error_msg
  else if String.eqb error_type "JSONDecodeError" then
    "Failed to parse API response. The API may be experiencing issues."
  else if String.eqb error_type "ValueError" then
    "Invalid input: " +:+ error_msg
  else if String.eqb error_type "KeyError" then
    "Missing expected data in API response: " +:+ error_msg
  else error_type +:+ ": " +:+ error_msg.

(** [log_tool_call(self.logger, self.name, query, latency_ms, status,
    error, cached)] *)
Definition log_tool_call (query : string) (latency_ms : Z)
    (status : string) (error : option string) (cached : option bool)
  : M R unit :=
  emit {| log_tool_name := name self;
          log_query := query;
          log_latency_ms := latency_ms;
          log_status := status;
          log_error :=
            match error with
            | Some "" => None
            | e => e
            end;
          log_cached := cached |}.

(** [len(d) if isinstance(d, list) else 1] *)
Definition results_count (d : value) : Z :=
  match d with
  | VList items => Z.of_nat (length items)
  | _ => 1
  end.

(** [int((time.time() - start_time) * 1000)] *)
Definition latency_since (start_time : Q) : M R Z :=
  t ← time_time;
  mret (Py.int ((t - start_time) * 1000)%Q).

(** The metadata dictionary of a successful result. *)
Definition success_metadata (query : string) (timestamp : Q)
    (latency_ms : Z) (cached : bool) (d : value) : gmap string value :=
  list_to_map
    [ ("query", VStr query);
      ("timestamp", VTimestamp timestamp);
      ("tool", VStr (name self));
      ("latency_ms", VInt latency_ms);
      ("cached", VBool cached);
      ("results_count", VInt (results_count d)) ].

(** The metadata dictionary of a failed result. *)
Definition failure_metadata (query : string) (timestamp : Q)
    (latency_ms : Z) : gmap string value :=
  list_to_map
    [ ("query", VStr query);
      ("timestamp", VTimestamp timestamp);
      ("tool", VStr (name self));
      ("latency_ms", VInt latency_ms) ].

(** The body of the [try] block of [_execute_with_monitoring]. *)
Definition monitored_body (start_time : Q) (cache_key query : string)
    (func : operation R value) : M R ToolResult :=
  cached_data ← _get_from_cache cache_key;
  if Py.is_not_None cached_data then
    latency_ms ← latency_since start_time;
    _ ← log_tool_call query latency_ms "success" None (Some true);
    utcnow ← time_time;
    mret {| success := true;
            data := cached_data;
            metadata := Some (success_metadata query utcnow latency_ms
                                true cached_data);
            error := None |}
  else
    data ← invoke func;
    parsed_data ← (λ w, (parse_results self data, w));
    _ ← _save_to_cache cache_key parsed_data;
    latency_ms ← latency_since start_time;
    _ ← log_tool_call query latency_ms "success" None None;
    utcnow ← time_time;
    mret {| success := true;
            data := parsed_data;
            metadata := Some (success_metadata query utcnow latency_ms
                                false parsed_data);
            error := None |}.

(** The [except Exception as e] block of [_execute_with_monitoring]. *)
Definition monitored_handler (start_time : Q) (query : string) (e : exn)
  : M R ToolResult :=
  latency_ms ← latency_since start_time;
  let error_msg := handle_errors e in
  _ ← log_tool_call query latency_ms "error" (Some error_msg) None;
  utcnow ← time_time;
  mret {| success := false;
          data := VNone;
          metadata := Some (failure_metadata query utcnow latency_ms);
          error := Some error_msg |}.

(** [BaseTool._execute_with_monitoring(method_name, query, func,
    **kwargs)].  [func] is given the keyword arguments; the cache key is
    built from the method name and the keyword dictionary
    [{"query": query, **kwargs}]. *)
Definition _execute_with_monitoring (method_name query : string)
    (func : list (string * scalar) → operation R value)
    (kwargs : list (string * scalar)) : M R ToolResult :=
  start_time ← time_time;
  let cache_key :=
    _get_cache_key method_name (("query", SStr query) :: kwargs) in
  try_except
    (monitored_body start_time cache_key query (func kwargs))
    (monitored_handler start_time query).

(** The shape of a successful result for [query] carrying [v]. *)
Definition is_success (query : string) (cached : bool) (v : value)
    (r : ToolResult) : Prop :=
  success r = true ∧ data r = v ∧ error r = None ∧
  ∃ m, metadata r = Some m ∧ m !! "cached" = Some (VBool cached) ∧
       m !! "query" = Some (VStr query) ∧
       m !! "tool" = Some (VStr (name self)) ∧
       is_Some (m !! "timestamp") ∧ is_Some (m !! "latency_ms") ∧
       m !! "results_count" = Some (VInt (results_count v)).

(** The shape of the failed result for the exception [e]. *)
Definition is_failure (query : string) (e : exn) (r : ToolResult)
  : Prop :=
  success r = false ∧ data r = VNone ∧
  error r = Some (handle_errors e) ∧
  ∃ m, metadata r = Some m ∧ m !! "cached" = None ∧
       m !! "query" = Some (VStr query) ∧
       m !! "tool" = Some (VStr (name self)) ∧
       is_Some (m !! "timestamp") ∧ is_Some (m !! "latency_ms").

(** What a caller observes of a call whose operation ends with [o],
    when nothing is served from the cache. *)
Definition uncached_observation (o : result value)
  : bool * value * option string :=
  match o with
  | Return raw =>
      match parse_results self raw with
      | Return v => (true, v, None)
      | Raise e => (false, VNone, Some (handle_errors e))
      end
  | Raise e => (false, VNone, Some (handle_errors e))
  end.

End Methods.

End BaseTool.

(** ** Sequences of envelope calls *)

Section Sessions.
Context {R : Type}.

(** Time passing between two calls: the clock advances by [d]. *)
Definition idle (d : Q) (w : World R) : World R :=
  set_env {| now := (now (env w) + d)%Q;
             limiter := limiter (env w);
             remote := remote (env w) |} w.

(** The same envelope call repeated, once per element of [gaps]; each
    call starts [gap] seconds after the previous one returned. *)
Fixpoint repeat_call (cfg : Settings.t) (self : BaseTool.t)
    (method_name query : string)
    (func : list (string * scalar) → operation R value)
    (kwargs : list (string * scalar)) (gaps : list Q) (w : World R)
  : list (result BaseTool.ToolResult) * World R :=
  match gaps with
  | [] => ([], w)
  | gap :: gaps =>
      let '(r, w) :=
        BaseTool._execute_with_monitoring cfg self method_name query
          func kwargs (idle gap w) in
      let '(rs, w) :=
        repeat_call cfg self method_name query func kwargs gaps w in
      (r :: rs, w)
  end.

(** What a caller reads off a result besides its metadata. *)
Definition observe (r : result BaseTool.ToolResult)
  : option (bool * value * option string) :=
  match r with
  | Return t =>
      Some (BaseTool.success t, BaseTool.data t, BaseTool.error t)
  | Raise _ => None
  end.


End Sessions.

(** ** Concrete inputs *)

Module Samples.

(** A world at time zero with an empty cache, an empty limiter registry,
    and a random source that always draws [0]. *)
Definition world {R} (r : R) : World R := {|
  env := {| now := 0; limiter := ∅; remote := r |};
  cache := ∅;
  log := [];
  rng := λ _, 0%Q;
  draws := 0;
  calls := 0;
  sleeps := []
|}.

(** [requests.exceptions.ConnectionError("refused")] *)
Definition connection_error : exn := {|
  exc_cls := ConnectionError;
  exc_name := "ConnectionError";
  exc_str := "refused";
  exc_status := None
|}.

(** The [HTTPError] that [raise_for_status] raises for [status]. *)
Definition http_error (status : Z) : exn := {|
  exc_cls := HTTPError;
  exc_name := "HTTPError";
  exc_str := pretty status +:+ " Error";
  exc_status := Some status
|}.

(** An operation that raises [e] on every invocation. *)
Definition always_raise {R A} (e : exn) : operation R A :=
  λ env, (Raise e, env).

(** An operation that returns [v] on every invocation. *)
Definition always_return {R A} (v : A) : operation R A :=
  λ env, (Return v, env).


(** What [requests] raises when a request exceeds its timeout. *)
Definition timeout_error : exn := {|
  exc_cls := Timeout;
  exc_name := "ReadTimeout";
  exc_str := "read timed out";
  exc_status := None
|}.

(** Two parsed records. *)
Definition papers : value :=
  VList [VDict [("pmid", VStr "1")]; VDict [("pmid", VStr "2")]].

(** A fetch under [@rate_limit("pubmed", 3)].  Fifty polls are five
    seconds, more than a bucket of rate 3 needs to hold one token. *)
Definition limited_fetch : operation unit value := λ e,
  match rate_limit 50 "pubmed" 3 (always_return papers) e with
  | Some out => out
  | None => (Raise timeout_error, e)
  end.

(** The default settings with caching switched off. *)
Definition no_cache : Settings.t :=
  Settings.with_cache false Settings.default.

(** A world whose cache holds [v] for [key], stored at time zero. *)
Definition world_caching {R} (r : R) (key : string) (v : value)
  : World R :=
  set_cache {[ key := (0%Q, v) ]} (world r).

(** An adapter that passes the raw response through, as
    [ChEMBLTool.parse_results] does for a response that is not a
    dictionary. *)
Definition passthrough_tool : BaseTool.t := {|
  BaseTool.name := "chembl";
  BaseTool.parse_results := λ raw, Return raw
|}.

End Samples.

(** ** Runs of the rate limiter *)

Module Runs.
Import RateLimiter.

(** A sequence of [consume] calls on one bucket, each started [delay]
    seconds after the previous one and asking for [n] tokens: the number of
    tokens handed out in total, the bucket and the clock at the end. *)
Fixpoint granted (self : TokenBucket) (now : Q) (calls : list (Q * Z))
  : Z * TokenBucket * Q :=
  match calls with
  | [] => (0, self, now)
  | (delay, n) :: calls =>
      let now := (now + delay)%Q in
      let '(ok, self) := consume self n now in
      let '(total, self, now) := granted self now calls in
      ((if ok then n else 0) + total, self, now)
  end.


End Runs.

(** ** Scripted services *)

Module Scripts.

(** An operation that plays a script: the state of the service is the
    list of outcomes still to come, each invocation takes the next one; a
    script that is used up answers [fallback]. *)
Definition scripted {A} (fallback : result A)
  : operation (list (result A)) A :=
  λ e,
    match remote e with
    | [] => (fallback, e)
    | o :: rest =>
        (o, {| now := now e; limiter := limiter e; remote := rest |})
    end.

(** The sum of a list of delays. *)
Definition total (ds : list Q) : Q := foldr Qplus 0%Q ds.

End Scripts.

(** ** utils/retry_handler.py: [RetrySession] *)

Module RetrySession.
Import RetryHandler.

(** What the session reads of a [requests.Response]. *)
Record Response := {
  status_code : Z;
  body : value
}.

(** [Response.raise_for_status()] of [requests]: an [HTTPError] carrying
    the response for the client and server error codes, nothing
    otherwise. *)
Definition raise_for_status (response : Response) : result unit :=
  if (400 <=? status_code response) && (status_code response <? 600)
  then Raise (Samples.http_error (status_code response))
  else Return ().

(** The attributes [RetrySession.__init__] sets. *)
Record t := {
  max_retries : Z;
  backoff_base : Z;
  timeout : Z
}.

(** [RetrySession.__init__(max_retries, backoff_base, timeout)] *)
Definition init (cfg : Settings.t) (max_retries backoff_base timeout : option Z)
  : t :=
  {| max_retries := Py.or_int max_retries (Settings.MAX_RETRIES cfg);
     backoff_base := Py.or_int backoff_base (Settings.RETRY_BACKOFF_BASE cfg);
     timeout := Py.or_int timeout (Settings.API_TIMEOUT cfg) |}.

(** The [timeout] that reaches [requests]: the keyword argument when the
    key is present, even with the value [None], and [self.timeout]
    otherwise. *)
Definition effective_timeout (self : t) (timeout_kwarg : option (option Z))
  : option Z :=
  match timeout_kwarg with
  | Some given => given
  | None => Some (timeout self)
  end.

Section Request.
Context {R : Type}.
Variable cfg : Settings.t.
Variable self : t.

(** A call that does not touch the world. *)
Definition pure_call {A} (r : result A) : M R A := λ w, (r, w).

(** The [try] block of one turn of the loop in [request]: [None] stands
    for [continue], [Some response] for [return response]. *)
Definition attempt_body (send : operation R Response) (attempt : Z)
  : M R (option Response) :=
  response ← invoke send;
  if bool_decide (status_code response ∈ RETRYABLE_STATUS_CODES) then
    if attempt <? max_retries self then
      backoff ← calculate_backoff cfg attempt (Some (backoff_base self))
                  None true;
      _ ← time_sleep backoff;
      mret None
    else
      _ ← pure_call (raise_for_status response);
      _ ← (if bool_decide
                (status_code response ∈ NON_RETRYABLE_STATUS_CODES)
           then pure_call (raise_for_status response)
           else mret ());
      mret (Some response)
  else
    _ ← (if bool_decide (status_code response ∈ NON_RETRYABLE_STATUS_CODES)
         then pure_call (raise_for_status response)
         else mret ());
    mret (Some response).

(** The loop of [request] over the attempts still to run, and the
    [raise last_exception] after it. *)
Fixpoint request_loop (send : operation R Response) (attempts : list Z)
    (last_exception : option exn) : M R Response :=
  match attempts with
  | [] =>
      match last_exception with
      | Some e => raise e
      | None => raise Py.raise_None_error
      end
  | attempt :: attempts =>
      λ w,
        match attempt_body send attempt w with
        | (Return (Some response), w) => (Return response, w)
        | (Return None, w) => request_loop send attempts last_exception w
        | (Raise e, w) =>
            if Py.isinstance e [ConnectionError; Timeout; RequestException]
            then
              if negb (is_retryable_error e) then (Raise e, w)
              else
                (_ ← (if attempt <? max_retries self then
                        backoff ← calculate_backoff cfg attempt
                                    (Some (backoff_base self)) None true;
                        time_sleep backoff
                      else mret ());
                 request_loop send attempts (Some e)) w
            else (Raise e, w)
        end
  end.

(** [RetrySession.request(method, url, **kwargs)].  [send] is
    [super().request] for this method and URL, given the timeout. *)
Definition request (send : option Z → operation R Response)
    (timeout_kwarg : option (option Z)) : M R Response :=
  request_loop (send (effective_timeout self timeout_kwarg))
    (Py.range (max_retries self + 1)) None.

End Request.

End RetrySession.

(** ** tools/base_tool.py: cache maintenance *)

Module CacheMaintenance.

(** [BaseTool.clear_cache()]: [self.cache.clear()].  The message it logs
    is not a [log_tool_call] record. *)
Definition clear_cache {R} : M R unit :=
  λ w, (Return (), set_cache ∅ w).

End CacheMaintenance.

(** ** Settings read from the environment *)

Module Configs.

(** The default settings with [CACHE_TTL] set to [ttl]. *)
Definition with_ttl (ttl : Z) (s : Settings.t) : Settings.t := {|
  Settings.MAX_RETRIES := Settings.MAX_RETRIES s;
  Settings.RETRY_BACKOFF_BASE := Settings.RETRY_BACKOFF_BASE s;
  Settings.RETRY_BACKOFF_MAX := Settings.RETRY_BACKOFF_MAX s;
  Settings.API_TIMEOUT := Settings.API_TIMEOUT s;
  Settings.CACHE_TTL := ttl;
  Settings.ENABLE_CACHE := Settings.ENABLE_CACHE s
|}.

End Configs.

(** * The tool adapters

    The adapters handle decoded JSON, whose shape is known only at run
    time.  [Dyn] gives the operations they apply to such values, with the
    exception each raises on a value of the wrong type.  A [VDict] lists
    the entries of the dictionary in insertion order, one per key. *)

Module Dyn.

(** [type(v).__name__] *)
Definition type_name (v : value) : string :=
  match v with
  | VNone => "NoneType"
  | VBool _ => "bool"
  | VInt _ => "int"
  | VStr _ | VTimestamp _ => "str"
  | VList _ => "list"
  | VDict _ => "dict"
  end.

(** The [AttributeError] of [v.attr] where the type of [v] has no such
    attribute. *)
Definition attribute_error (v : value) (attr : string) : exn := {|
  exc_cls := OtherException;
  exc_name := "AttributeError";
  exc_str := "'" +:+ type_name v +:+ "' object has no attribute '"
             +:+ attr +:+ "'";
  exc_status := None
|}.

(** A [TypeError] with message [msg]. *)
Definition type_error (msg : string) : exn := {|
  exc_cls := OtherException;
  exc_name := "TypeError";
  exc_str := msg;
  exc_status := None
|}.

(** [bool(v)], which is what [if v:] and [not v] test. *)
Definition truthy (v : value) : bool :=
  match v with
  | VNone => false
  | VBool b => b
  | VInt n => negb (n =? 0)
  | VStr s => negb (String.eqb s "")
  | VTimestamp _ => true
  | VList items => negb (bool_decide (length items = 0%nat))
  | VDict fields => negb (bool_decide (length fields = 0%nat))
  end.

(** The entry of key [k]. *)
Fixpoint assoc (k : string) (fields : list (string * value))
  : option value :=
  match fields with
  | [] => None
  | (k', v) :: fields => if String.eqb k k' then Some v else assoc k fields
  end.

(** [k in d] for a dictionary [d]. *)
Definition has_key (k : string) (fields : list (string * value)) : bool :=
  bool_decide (is_Some (assoc k fields)).

(** [d.get(k, default)]: only a dictionary has the method, and a key that
    is present answers its value, also when that value is [None]. *)
Definition get (d : value) (k : string) (default : value)
  : result value :=
  match d with
  | VDict fields => Return (from_option id default (assoc k fields))
  | _ => Raise (attribute_error d "get")
  end.

(** [l[:n]] *)
Definition slice_to {A} (l : list A) (n : Z) : list A :=
  if 0 <=? n then take (Z.to_nat n) l
  else take (length l - Z.to_nat (- n)) l.

Global Instance result_ret : MRet result := λ A a, Return a.
Global Instance result_bind : MBind result := λ A B f r,
  match r with
  | Return a => f a
  | Raise e => Raise e
  end.

(** [[f(x) for x in l]]: the first exception ends the comprehension. *)
Fixpoint comprehension {A B} (f : A → result B) (l : list A)
  : result (list B) :=
  match l with
  | [] => Return []
  | x :: l =>
      y ← f x;
      ys ← comprehension f l;
      Return (y :: ys)
  end.

Section Rendering.
(** The text Python gives a list, a dictionary and a timestamp. *)
Variable render : value → string.

(** [str(v)], which is what [f"{v}"] renders. *)
Definition str (v : value) : string :=
  match v with
  | VNone => "None"
  | VBool true => "True"
  | VBool false => "False"
  | VInt n => pretty n
  | VStr s => s
  | _ => render v
  end.

(** The characters of a string, each a string of length one. *)
Fixpoint characters (s : string) : list value :=
  match s with
  | EmptyString => []
  | String c s => VStr (String c EmptyString) :: characters s
  end.

(** The elements [for x in v] visits: the items of a list, the keys of a
    dictionary, the characters of a string. *)
Definition iterate (v : value) : result (list value) :=
  match v with
  | VList items => Return items
  | VDict fields => Return ((λ kv, VStr kv.1) <$> fields)
  | VStr s => Return (characters s)
  | VTimestamp _ => Return (characters (render v))
  | _ => Raise (type_error ("'" +:+ type_name v
                            +:+ "' object is not iterable"))
  end.

End Rendering.

End Dyn.

(** ** tools/clinical_trials_tool.py *)

Module ClinicalTrials.

Definition VALID_STATUSES : gset string :=
  {[ "RECRUITING"; "NOT_YET_RECRUITING"; "ACTIVE_NOT_RECRUITING";
     "COMPLETED"; "SUSPENDED"; "TERMINATED"; "WITHDRAWN" ]}.

Definition VALID_PHASES : gset string :=
  {[ "EARLY_PHASE1"; "PHASE1"; "PHASE2"; "PHASE3"; "PHASE4"; "NA" ]}.

(** [bool(x)] for an [Optional[str]]: [None] and the empty string are
    both falsy. *)
Definition given (x : option string) : bool :=
  match x with
  | Some s => negb (String.eqb s "")
  | None => false
  end.

(** [f"{x}"] for an [Optional[str]]. *)
Definition fmt (x : option string) : string :=
  match x with
  | Some s => s
  | None => "None"
  end.

(** One part of the query, when its argument is given. *)
Definition part (area : string) (x : option string) : list string :=
  if given x then [area +:+ fmt x] else [].

(** The [query_parts] of [search_trials]. *)
Definition query_parts (condition intervention sponsor country
    : option string) : list string :=
  part "AREA[ConditionSearch]" condition
  ++ part "AREA[InterventionSearch]" intervention
  ++ part "AREA[LeadSponsorName]" sponsor
  ++ part "AREA[LocationCountry]" country.

(** The [query] of [search_trials]. *)
Definition query (condition intervention sponsor country : option string)
  : string :=
  let query_parts := query_parts condition intervention sponsor country in
  if bool_decide (query_parts = []) then "AREA[StudyType]INTERVENTIONAL"
  else String.concat " AND " query_parts.

(** The [filters] of [search_trials]. *)
Definition filters (status phase : option string) : list string :=
  (if given status && bool_decide (fmt status ∈ VALID_STATUSES)
   then ["overallStatus:" +:+ fmt status] else [])
  ++ (if given phase && bool_decide (fmt phase ∈ VALID_PHASES)
      then ["phase:" +:+ fmt phase] else []).

(** The [query_params] of [search_trials], entries whose value is [None]
    removed. *)
Definition query_params (condition intervention status phase sponsor
    country : option string) : list (string * string) :=
  ("query.term", query condition intervention sponsor country)
  :: (if bool_decide (filters status phase = []) then []
      else (if given status then [("filter.overallStatus", fmt status)]
            else [])
           ++ (if given phase then [("filter.phase", fmt phase)]
               else [])).

(** The [query_str] of [search_trials], from which the cache key is
    made. *)
Definition query_str (condition intervention status : option string)
  : string :=
  "condition=" +:+ fmt condition +:+ ", intervention="
  +:+ fmt intervention +:+ ", status=" +:+ fmt status.

Section Pagination.
Context {R : Type}.
Variable render : value → string.

(** [self._search_trials_page(query_params, page_token)]: the request for
    one page, made under the rate limit, and the decoded answer. *)
Variable _search_trials_page :
  list (string * string) → value → operation R value.

(** The [while] loop of [_execute], entered with [all_studies] and
    [page_token]; one unit of fuel per request, [None] when the loop has
    not ended when the fuel is used up. *)
Fixpoint pages_loop (fuel : nat) (query_params : list (string * string))
    (max_results_limit : Z) (all_studies : list value)
    (page_token : value) (e : Env R)
  : option (result (list value) * Env R) :=
  if negb (Z.of_nat (length all_studies) <? max_results_limit)
  then Some (Return all_studies, e)
  else
    match fuel with
    | O => None
    | S fuel =>
        match _search_trials_page query_params page_token e with
        | (Raise x, e) => Some (Raise x, e)
        | (Return response_data, e) =>
            let step :=
              studies ← Dyn.get response_data "studies" (VList []);
              items ← Dyn.iterate render studies;
              page_token ← Dyn.get response_data "nextPageToken" VNone;
              Return (all_studies ++ items, page_token) in
            match step with
            | Raise x => Some (Raise x, e)
            | Return (all_studies, page_token) =>
                if negb (Dyn.truthy page_token)
                   || (max_results_limit
                       <=? Z.of_nat (length all_studies))
                then Some (Return all_studies, e)
                else pages_loop fuel query_params max_results_limit
                       all_studies page_token e
            end
        end
    end.

(** The closure [_execute] of [search_trials]. *)
Definition _execute (fuel : nat) (query_params : list (string * string))
    (max_results : option Z) (e : Env R)
  : option (result value * Env R) :=
  let max_results_limit := Py.or_int max_results 100 in
  out ← pages_loop fuel query_params max_results_limit [] VNone e;
  Some (match out.1 with
        | Return all_studies =>
            Return (VDict [("studies",
                            VList (Dyn.slice_to all_studies
                                     max_results_limit))])
        | Raise x => Raise x
        end, out.2).

End Pagination.

Section Search.
Context {R : Type}.
Variable cfg : Settings.t.
Variable self : BaseTool.t.

(** [ClinicalTrialsTool.search_trials(condition, intervention, status,
    phase, max_results, sponsor, country)]; [status] is
    [Some "RECRUITING"] when the caller leaves it out.  [run] is the
    closure [_execute], given what it takes from the enclosing call. *)
Definition search_trials
    (run : list (string * string) → option Z → operation R value)
    (condition intervention status phase : option string)
    (max_results : option Z) (sponsor country : option string)
  : M R BaseTool.ToolResult :=
  let query_params :=
    query_params condition intervention status phase sponsor country in
  BaseTool._execute_with_monitoring cfg self "search_trials"
    (query_str condition intervention status)
    (λ _, run query_params max_results) [].

End Search.

End ClinicalTrials.

(** ** Paged services *)

Module Pages.

(** The decoded answer to a page request: its studies and the token of
    the next page. *)
Definition response (page : list value * value) : value :=
  VDict [("studies", VList page.1); ("nextPageToken", page.2)].

(** The script of a service that answers [pages] one after the other. *)
Definition script (pages : list (list value * value))
  : list (result value) :=
  (λ p, Return (response p)) <$> pages.

(** A service that hands out the pages of its script one request at a
    time, whatever the request says, and answers [fallback] when the script
    is used up. *)
Definition serve (fallback : result value)
  : list (string * string) → value → operation (list (result value)) value :=
  λ _ _, Scripts.scripted fallback.

End Pages.

(** ** tools/chembl_tool.py *)

Module ChEMBL.

(** The [phase_map] of [_parse_molecule]. *)
Definition phase_map (max_phase : Z) : string :=
  if max_phase =? 0 then "Preclinical"
  else if max_phase =? 1 then "Phase 1"
  else if max_phase =? 2 then "Phase 2"
  else if max_phase =? 3 then "Phase 3"
  else if max_phase =? 4 then "Approved"
  else "Unknown".

(** [phase_map.get(max_phase, "Unknown")]: the key must be hashable, and
    [True] and [False] are the keys [1] and [0]. *)
Definition development_phase (max_phase : value) : result value :=
  match max_phase with
  | VInt n => Return (VStr (phase_map n))
  | VBool b => Return (VStr (phase_map (if b then 1 else 0)))
  | VList _ | VDict _ =>
      Raise (Dyn.type_error ("unhashable type: '"
                             +:+ Dyn.type_name max_phase +:+ "'"))
  | _ => Return (VStr "Unknown")
  end.

(** The loop of [_parse_molecule] over the mechanisms: the action and the
    target of those that name an action. *)
Fixpoint mechanisms (items : list value) : result (list (value * value)) :=
  match items with
  | [] => Return []
  | mech :: items =>
      mechanism_of_action ← Dyn.get mech "mechanism_of_action" (VStr "");
      target_name ← Dyn.get mech "target_name" (VStr "");
      rest ← mechanisms items;
      Return (if Dyn.truthy mechanism_of_action
              then (mechanism_of_action, target_name) :: rest
              else rest)
  end.

(** [ChEMBLTool._parse_target(target)] *)
Definition _parse_target (target : value) : result value :=
  target_chembl_id ← Dyn.get target "target_chembl_id" (VStr "");
  target_type ← Dyn.get target "target_type" (VStr "");
  organism ← Dyn.get target "organism" (VStr "");
  pref_name ← Dyn.get target "pref_name" (VStr "");
  target_components ← Dyn.get target "target_components" (VList []);
  Return (VDict [("target_chembl_id", target_chembl_id);
                 ("target_type", target_type);
                 ("organism", organism);
                 ("pref_name", pref_name);
                 ("target_components", target_components)]).

(** [ChEMBLTool._parse_drug_indication(indication)] *)
Definition _parse_drug_indication (indication : value) : result value :=
  chembl_id ← Dyn.get indication "molecule_chembl_id" (VStr "");
  drug_name ← Dyn.get indication "parent_molecule_name" (VStr "");
  mesh_heading ← Dyn.get indication "mesh_heading" (VStr "");
  max_phase ← Dyn.get indication "max_phase_for_ind" (VInt 0);
  efo_term ← Dyn.get indication "efo_term" (VStr "");
  Return (VDict [("chembl_id", chembl_id);
                 ("drug_name", drug_name);
                 ("indication", mesh_heading);
                 ("max_phase", max_phase);
                 ("efo_term", efo_term)]).

Section Parsing.
Variable render : value → string.

(** [ChEMBLTool._parse_molecule(molecule)] *)
Definition _parse_molecule (molecule : value) : result value :=
  chembl_id ← Dyn.get molecule "molecule_chembl_id" (VStr "");
  pref_name ← Dyn.get molecule "pref_name" (VStr "No name");
  molecule_type ← Dyn.get molecule "molecule_type" (VStr "");
  props ← Dyn.get molecule "molecule_properties" (VDict []);
  molecular_weight ← Dyn.get props "full_mwt" (VStr "N/A");
  alogp ← Dyn.get props "alogp" (VStr "N/A");
  max_phase ← Dyn.get molecule "max_phase" (VInt 0);
  development_phase ← development_phase max_phase;
  listed ← Dyn.get molecule "molecule_mechanisms" (VList []);
  items ← Dyn.iterate render listed;
  mechanisms ← mechanisms items;
  let first_moa :=
    match mechanisms with
    | (action, _) :: _ => action
    | [] => VStr "Not available"
    end in
  Return (VDict [("chembl_id", chembl_id);
                 ("name", pref_name);
                 ("molecule_type", molecule_type);
                 ("molecular_weight", molecular_weight);
                 ("alogp", alogp);
                 ("development_phase", development_phase);
                 ("max_phase", max_phase);
                 ("mechanism_of_action", first_moa);
                 ("mechanisms",
                  VList ((λ m, VDict [("action", m.1); ("target", m.2)])
                         <$> mechanisms));
                 ("url",
                  VStr ("https://www.ebi.ac.uk/chembl/compound_report_card/"
                        +:+ Dyn.str render chembl_id +:+ "/"))]).

(** [[parse(x) for x in raw_data.get(key, [])]] *)
Definition parse_all (parse : value → result value) (raw_data : value)
    (key : string) : result value :=
  listed ← Dyn.get raw_data key (VList []);
  items ← Dyn.iterate render listed;
  parsed ← Dyn.comprehension parse items;
  Return (VList parsed).

(** [ChEMBLTool.parse_results(raw_data)] *)
Definition parse_results (raw_data : value) : result value :=
  match raw_data with
  | VDict fields =>
      if Dyn.has_key "molecules" fields then
        parse_all _parse_molecule raw_data "molecules"
      else if Dyn.has_key "targets" fields then
        parse_all _parse_target raw_data "targets"
      else if Dyn.has_key "drug_indications" fields then
        parse_all _parse_drug_indication raw_data "drug_indications"
      else if Dyn.has_key "molecule_chembl_id" fields then
        _parse_molecule raw_data
      else _parse_target raw_data
  | _ => Return raw_data
  end.

(** The tool as the envelope sees it. *)
Definition tool : BaseTool.t := {|
  BaseTool.name := "ChEMBL";
  BaseTool.parse_results := parse_results
|}.

End Parsing.

End ChEMBL.

(** ** tools/pubmed_tool.py *)

Module PubMed.

(** The settings [search_pubmed] reads. *)
Record settings := {
  PUBMED_DEFAULT_MAX_RESULTS : Z;
  PUBMED_DEFAULT_DATE_RANGE : Z
}.

(** The [Field(default=...)] values. *)
Definition default : settings := {|
  PUBMED_DEFAULT_MAX_RESULTS := 10;
  PUBMED_DEFAULT_DATE_RANGE := 2
|}.


Section Tool.
Context {R : Type}.
Variable cfg : Settings.t.
Variable pubmed : settings.
Variable render : value → string.

(** The [try] block of [parse_results] for a [raw_data] that is a string:
    the XML document is read and its articles are parsed, and a document
    that is not well formed ends in [ValueError]. *)
Variable parse_articles : string → result value.

(** [(datetime.now() - timedelta(days=n)).strftime("%Y/%m/%d")] where the
    clock reads [t]. *)
Variable days_before : Q → Z → string.

(** [self._search_ids(query, max_results, date_from, date_to)] and
    [self._fetch_details(pmids)]: the two requests, made under the rate
    limit, and what they answer. *)
Variable _search_ids :
  string → Z → option string → option string → operation R value.
Variable _fetch_details : value → operation R value.

(** [PubMedTool.parse_results(raw_data)]: [ET.fromstring] takes a string
    and raises [TypeError] on anything else, which the [except
    ET.ParseError] clause does not catch. *)
Definition parse_results (raw_data : value) : result value :=
  match raw_data with
  | VStr s => parse_articles s
  | VTimestamp _ => parse_articles (render raw_data)
  | _ =>
      Raise (Dyn.type_error ("a bytes-like object is required, not '"
                             +:+ Dyn.type_name raw_data +:+ "'"))
  end.

(** The tool as the envelope sees it. *)
Definition tool : BaseTool.t := {|
  BaseTool.name := "PubMed";
  BaseTool.parse_results := parse_results
|}.

(** The closure [_execute] of [search_pubmed]. *)
Definition _execute (query : string) (max_results : Z)
    (date_from date_to : option string) : operation R value :=
  λ e,
    match _search_ids query max_results date_from date_to e with
    | (Return pmids, e) =>
        if negb (Dyn.truthy pmids) then (Return (VList []), e)
        else _fetch_details pmids e
    | (Raise x, e) => (Raise x, e)
    end.


End Tool.

End PubMed.

(** * Properties *)

(** ** The token bucket *)

Section TokenBucketProperties.
Import RateLimiter.

Lemma py_min_le_l a b : (Py.min a b <= a)%Q.
Proof.
  unfold Py.min. destruct (Qle_bool a b) eqn:E; [lra|].
  apply not_true_iff_false in E. rewrite Qle_bool_iff in E. lra.
Qed.

Lemma py_min_glb a b c : (c <= a)%Q → (c <= b)%Q → (c <= Py.min a b)%Q.
Proof. unfold Py.min. destruct (Qle_bool a b); auto. Qed.

Lemma init_sane rate capacity t0 now :
  (0 <= rate)%Q → (∀ c, capacity = Some c → (0 <= c)%Q) → (t0 <= now)%Q →
  sane (init rate capacity t0) now.
Proof.
  intros Hr Hc Ht. unfold sane, within_capacity, init. simpl.
  assert (0 <= Py.or_float capacity rate)%Q.
  { unfold Py.or_float. destruct capacity as [c|]; [|done].
    destruct (Qeq_bool c 0); auto. }
  repeat split; try done. lra.
Qed.

Lemma refill_sane b now : sane b now → sane (refill b now) now.
Proof.
  intros (Hr & [H0 Hc] & Ht). repeat split; simpl; try lra.
  - apply py_min_glb; [lra|]. nra.
  - apply py_min_le_l.
Qed.

Lemma consume_sane b n now :
  0 <= n → sane b now → sane (snd (consume b n now)) now.
Proof.
  intros Hn Hb. apply refill_sane in Hb. unfold consume.
  destruct Hb as (Hr & [H0 Hc] & Ht).
  assert (0 <= inject_Z n)%Q as Hq.
  { change 0%Q with (inject_Z 0). by rewrite <- Zle_Qle. }
  destruct (Qle_bool _ _) eqn:E; simpl.
  - apply Qle_bool_iff in E. repeat split; simpl in *; lra.
  - repeat split; simpl in *; lra.
Qed.

Lemma sane_later b now later : (now <= later)%Q → sane b now → sane b later.
Proof. intros ? (? & ? & ?). repeat split; try tauto; try apply H1; lra. Qed.

(** Every poll of [wait_for_token] leaves the bucket within capacity,
    whether or not the loop has ended within the fuel. *)
Lemma wait_trace_sane fuel : ∀ b n now,
  0 <= n → sane b now →
  Forall within_capacity (wait_trace fuel b n now) ∧
  let '(_, b', now') := wait_for_token fuel b n now in sane b' now'.
Proof.
  induction fuel as [|fuel IH]; intros b n now Hn Hb; simpl.
  { split; [constructor | done]. }
  pose proof (consume_sane b n now Hn Hb) as Hc.
  destruct (consume b n now) as [ok b'] eqn:E; simpl in Hc.
  destruct ok.
  - split; [|done]. repeat constructor; apply Hc.
  - assert (sane b' (now + poll_interval)) as Hb'.
    { eapply sane_later; [|done]. unfold poll_interval. lra. }
    destruct (IH b' n _ Hn Hb') as [Ht Hw]. split; [|done].
    constructor; [apply Hc | done].
Qed.

Lemma bucket_run_sane ops : ∀ b now,
  sane b now →
  Forall (λ '(delay, op), (0 <= delay)%Q ∧ 0 <= amount op) ops →
  Forall within_capacity (bucket_run b now ops).
Proof.
  induction ops as [|[delay op] ops IH]; intros b now Hb Hops; simpl.
  { constructor. }
  apply Forall_cons in Hops as [[Hd Hn] Hrest].
  assert (sane b (now + delay)) as Hb'.
  { eapply sane_later; [|done]. lra. }
  destruct op as [n | fuel n]; simpl in Hn.
  - pose proof (consume_sane b n _ Hn Hb') as Hc.
    constructor; [apply Hc | by apply IH].
  - destruct (wait_trace_sane fuel b n _ Hn Hb') as [Ht Hw].
    destruct (wait_for_token fuel b n (now + delay)) as [[ok b'] now'].
    apply Forall_app. split; [done | by apply IH].
Qed.

(** [RateLimiter.wait] keeps every bucket of the registry sane. *)
Lemma wait_sane fuel buckets key rate n now :
  (0 <= rate)%Q → 0 <= n →
  map_Forall (λ _ b, sane b now) buckets →
  let '(_, buckets', now') := wait fuel buckets key rate n now in
  map_Forall (λ _ b, sane b now') buckets'.
Proof.
  intros Hr Hn Hall. unfold wait.
  assert (∀ b, (get_bucket buckets key rate now).1 = b → sane b now) as Hb.
  { unfold get_bucket. intros b. destruct (buckets !! key) eqn:E; simpl.
    - intros <-. by eapply Hall.
    - intros <-. apply init_sane; [done | done | lra]. }
  assert (map_Forall (λ _ b, sane b now)
            (get_bucket buckets key rate now).2) as Hall'.
  { unfold get_bucket. destruct (buckets !! key) eqn:E; simpl; [done|].
    apply map_Forall_insert_2; [|done]. apply init_sane; [done|done|lra]. }
  destruct (get_bucket buckets key rate now) as [b bs]. simpl in *.
  specialize (Hb b eq_refl).
  pose proof (consume_sane b n now Hn Hb) as Hc.
  destruct (consume b n now) as [ok b1]. simpl in Hc. destruct ok.
  - by apply map_Forall_insert_2.
  - destruct (wait_trace_sane fuel b1 n now Hn Hc) as [_ Hw].
    destruct (wait_for_token fuel b1 n now) as [[ok b2] now2] eqn:E.
    assert (now <= now2)%Q as Hle.
    { clear -E. revert b1 now E. induction fuel as [|fuel IH];
        intros b1 now E; simpl in E.
      - injection E as _ _ <-. lra.
      - destruct (consume b1 n now) as [[] b']; [injection E as _ _ <-; lra|].
        apply IH in E. unfold poll_interval in E. lra. }
    apply map_Forall_insert_2; [done|].
    eapply map_Forall_impl; [exact Hall'|].
    intros k x Hx. by eapply sane_later.
Qed.

(** C4, as amended: a bucket created with a non-negative rate and
    capacity stays within [0, capacity] at creation and after every
    [consume], those of [wait_for_token] included, along any sequence of
    operations that ask for non-negative amounts while the clock does not
    run backwards. *)
Theorem token_bucket_within_capacity (rate : Q) (capacity : option Q)
    (t0 now : Q) (ops : list (Q * bucket_op)) :
  (0 <= rate)%Q →
  (∀ c, capacity = Some c → (0 <= c)%Q) →
  (t0 <= now)%Q →
  Forall (λ '(delay, op), (0 <= delay)%Q ∧ 0 <= amount op) ops →
  Forall within_capacity
    (init rate capacity t0 :: bucket_run (init rate capacity t0) now ops).
Proof.
  intros Hr Hc Ht Hops.
  pose proof (init_sane rate capacity t0 now Hr Hc Ht) as Hs.
  constructor; [apply Hs | by apply bucket_run_sane].
Qed.

Lemma token_bucket_within_capacity_witness :
  Forall within_capacity
    (init 3 None 0 ::
     bucket_run (init 3 None 0) 0
       [(0%Q, Consume 1); (1 # 2, WaitForToken 4 3); (0%Q, Consume 5)]).
Proof.
  apply token_bucket_within_capacity.
  - lra.
  - intros c Hc. discriminate Hc.
  - lra.
  - repeat constructor; simpl; lra || lia.
Defined.

(** C4 as stated fails: a request for a negative amount overfills the
    bucket, a negative rate drains it below zero, and a negative capacity
    starts it below zero. *)
Lemma token_bucket_out_of_range :
  ¬ Forall within_capacity
      (bucket_run (init 3 None 0) 0 [(0%Q, Consume (-1))]) ∧
  ¬ Forall within_capacity
      (bucket_run (init (-1) (Some 5%Q) 0) 0 [(10%Q, Consume 0)]) ∧
  ¬ within_capacity (init 3 (Some (-5)%Q) 0).
Proof.
  repeat split.
  - intros H. apply Forall_cons in H as [[_ H] _]. vm_compute in H. done.
  - intros H. apply Forall_cons in H as [[H _] _]. vm_compute in H. done.
  - intros [H _]. vm_compute in H. done.
Qed.

End TokenBucketProperties.

(** ** The retry executor *)

Section RetryProperties.
Import RetryHandler.
Context {R A : Type}.

Lemma range_succ n :
  0 <= n →
  Py.range (n + 1) = (λ i : nat, Z.of_nat i) <$> seq 0 (S (Z.to_nat n)).
Proof.
  intros Hn. unfold Py.range.
  by replace (Z.to_nat (n + 1)) with (S (Z.to_nat n)) by lia.
Qed.

Lemma non_retryable_disjoint s :
  s ∈ NON_RETRYABLE_STATUS_CODES → s ∉ RETRYABLE_STATUS_CODES.
Proof.
  unfold NON_RETRYABLE_STATUS_CODES, RETRYABLE_STATUS_CODES. intros H1 H2.
  rewrite !elem_of_union, !elem_of_singleton in H1.
  rewrite !elem_of_union, !elem_of_singleton in H2. lia.
Qed.

(** A failure other than a connection error or a timeout is retried only
    when it is a [RequestException] with a retryable code. *)
Lemma protocol_failure_not_retryable e s :
  Py.isinstance e [ConnectionError; Timeout] = false →
  exc_status e = Some s →
  s ∉ RETRYABLE_STATUS_CODES →
  is_retryable_error e = false.
Proof.
  intros Hc Hs Hn. unfold is_retryable_error. rewrite Hc, Hs.
  destruct (Py.isinstance e [RequestException]); [|done].
  by apply bool_decide_eq_false.
Qed.

(** A failure that is not retryable ends the loop at its first try. *)
Lemma fail_fast cfg max_retries backoff_base classes
    (func : operation R A) (w : World R) e :
  0 <= Py.or_int max_retries (Settings.MAX_RETRIES cfg) →
  fst (func (env w)) = Raise e →
  is_retryable_error e = false →
  ∃ w', retry_on_failure cfg max_retries backoff_base classes func w
          = (Raise e, w') ∧
        calls w' = S (calls w) ∧ sleeps w' = sleeps w ∧
        draws w' = draws w ∧ env w' = snd (func (env w)).
Proof.
  intros Hn He Hr. unfold retry_on_failure. rewrite range_succ by done.
  cbn [seq fmap list_fmap retry_loop]. unfold invoke.
  destruct (func (env w)) as [r e'] eqn:E.
  simpl in He. subst r. rewrite Hr. cbn [negb].
  destruct (Py.isinstance e classes); eauto 10.
Qed.

(** C3: a failure that is not a connection error or a timeout and whose
    status is in the non-retryable set, or in neither set, is classified as
    not retryable; the executor invokes the operation once, does not sleep
    or draw a backoff, and raises that same error. *)
Theorem non_retryable_status_fails_fast (cfg : Settings.t)
    (max_retries backoff_base : option Z) (classes : list exc_class)
    (func : operation R A) (w : World R) (e : exn) (s : Z) :
  0 <= Py.or_int max_retries (Settings.MAX_RETRIES cfg) →
  fst (func (env w)) = Raise e →
  Py.isinstance e [ConnectionError; Timeout] = false →
  exc_status e = Some s →
  ((s ∈ NON_RETRYABLE_STATUS_CODES) ∨
     ((s ∉ RETRYABLE_STATUS_CODES) ∧ (s ∉ NON_RETRYABLE_STATUS_CODES))) →
  is_retryable_error e = false ∧
  ∃ w', retry_on_failure cfg max_retries backoff_base classes func w
          = (Raise e, w') ∧
        calls w' = S (calls w) ∧ sleeps w' = sleeps w ∧
        draws w' = draws w.
Proof.
  intros Hn He Hc Hs Hcode.
  assert (is_retryable_error e = false) as Hr.
  { apply (protocol_failure_not_retryable e s Hc Hs).
    destruct Hcode as [H | [H _]]; [by apply non_retryable_disjoint | done]. }
  split; [done|].
  destruct (fail_fast cfg max_retries backoff_base classes func w e Hn He Hr)
    as (w' & ? & ? & ? & ? & _).
  eauto.
Qed.

End RetryProperties.

(** A status in neither set, 418, is not retried either. *)
Example unrecognised_status_fails_fast :
  let '(r, w) :=
    RetryHandler.retry_on_failure Settings.default None None
      RetryHandler.default_retryable_exceptions
      (Samples.always_raise (A:=value) (Samples.http_error 418))
      (Samples.world ()) in
  r = Raise (Samples.http_error 418) ∧ calls w = 1%nat ∧ sleeps w = [].
Proof. vm_compute. done. Qed.

(** A retryable status, 503, is retried until the retries are used up. *)
Example retryable_status_is_retried :
  calls (RetryHandler.retry_on_failure Settings.default None None
           RetryHandler.default_retryable_exceptions
           (Samples.always_raise (A:=value) (Samples.http_error 503))
           (Samples.world ())).2 = 4%nat.
Proof. vm_compute. done. Qed.

Lemma non_retryable_status_fails_fast_witness :
  RetryHandler.is_retryable_error (Samples.http_error 404) = false ∧
  ∃ w', RetryHandler.retry_on_failure Settings.default (Some 3) None
          RetryHandler.default_retryable_exceptions
          (Samples.always_raise (A:=value) (Samples.http_error 404))
          (Samples.world ())
        = (Raise (Samples.http_error 404), w') ∧
        calls w' = 1%nat ∧ sleeps w' = [] ∧ draws w' = 0%nat.
Proof.
  apply (non_retryable_status_fails_fast Settings.default (Some 3) None
           RetryHandler.default_retryable_exceptions
           (Samples.always_raise (Samples.http_error 404))
           (Samples.world ()) (Samples.http_error 404) 404).
  - vm_compute. discriminate.
  - reflexivity.
  - reflexivity.
  - reflexivity.
  - left. vm_compute. reflexivity.
Defined.

Section RetryExhaustion.
Import RetryHandler.
Context {R A : Type}.
Variable cfg : Settings.t.
Variable func : operation R A.
Variables max_retries backoff_base : Z.

(** The operation raises a retryable error on every invocation, and the
    configuration yields backoffs that [time.sleep] accepts. *)
Hypothesis always_fails :
  ∀ e : Env R, ∃ err e',
    func e = (Raise err, e') ∧ is_retryable_error err = true.
Hypothesis base_nonneg :
  0 <= Py.or_int (Some backoff_base) (Settings.RETRY_BACKOFF_BASE cfg).
Hypothesis cap_nonneg : 0 <= Settings.RETRY_BACKOFF_MAX cfg.

Lemma retryable_is_caught err :
  is_retryable_error err = true →
  Py.isinstance err default_retryable_exceptions = true.
Proof.
  unfold is_retryable_error, Py.isinstance. simpl.
  destruct (exc_cls err); simpl; try done.
Qed.

Lemma ideal_backoff_nonneg attempt :
  0 <= attempt → 0 <= ideal_backoff cfg attempt (Some backoff_base) None.
Proof.
  intros Ha. unfold ideal_backoff.
  apply Z.min_glb; [by apply Z.pow_nonneg | done].
Qed.

Lemma retry_loop_retry classes attempt attempts last (w w1 : World R) err :
  invoke func w = (Raise err, w1) →
  Py.isinstance err classes = true →
  is_retryable_error err = true →
  retry_loop cfg max_retries backoff_base classes func
    (attempt :: attempts) last w
  = (_ ← (if attempt <? max_retries then
            backoff ← calculate_backoff cfg attempt (Some backoff_base)
                        None true;
            time_sleep backoff
          else mret ());
     retry_loop cfg max_retries backoff_base classes func attempts
       (Some err)) w1.
Proof. intros Hi Hc Hr. cbn [retry_loop]. by rewrite Hi, Hc, Hr. Qed.

Lemma invoke_fails (w : World R) :
  ∃ err w1, invoke func w = (Raise err, w1) ∧
    is_retryable_error err = true ∧
    calls w1 = S (calls w) ∧ sleeps w1 = sleeps w ∧ rng w1 = rng w ∧
    draws w1 = draws w.
Proof.
  unfold invoke. destruct (always_fails (env w)) as (err & e' & -> & Hr).
  eauto 10.
Qed.

Lemma backoff_sleep attempt (w : World R) :
  0 <= attempt → (0 <= rng w (draws w))%Q →
  ∃ w2,
    (backoff ← calculate_backoff cfg attempt (Some backoff_base) None true;
     time_sleep backoff) w = (Return (), w2) ∧
    calls w2 = calls w ∧ length (sleeps w2) = S (length (sleeps w)) ∧
    rng w2 = rng w.
Proof.
  intros Ha Hr. unfold calculate_backoff, random_random, time_sleep.
  unfold mbind, M_bind, mret, M_ret.
  cbn [draws rng env now sleeps calls].
  match goal with |- context [Qle_bool 0 ?b] =>
    assert (Qle_bool 0 b = true) as ->
  end.
  { apply Qle_bool_iff. unfold jitter_factor.
    pose proof (ideal_backoff_nonneg attempt Ha) as Hi.
    rewrite Zle_Qle in Hi. change (inject_Z 0) with 0%Q in Hi. nra. }
  eauto.
Qed.

(** The loop over the attempts [k, ..., max_retries] ends as the
    invocation made at the last attempt does. *)
Lemma exhaust_loop m : ∀ (k : nat) last (w : World R),
  Z.of_nat (k + m) = max_retries →
  (∀ i, 0 <= rng w i)%Q →
  ∃ w_last,
    retry_loop cfg max_retries backoff_base default_retryable_exceptions
      func ((λ i : nat, Z.of_nat i) <$> seq k (S m)) last w
    = invoke func w_last ∧
    calls w_last = (calls w + m)%nat ∧
    length (sleeps w_last) = (length (sleeps w) + m)%nat ∧
    rng w_last = rng w.
Proof.
  induction m as [|m IH]; intros k last w Hk Hrng;
    destruct (invoke_fails w) as (err & w1 & Hi & Hr & Hc & Hs & Hg & Hd);
    change (seq k (S ?n)) with (k :: seq (S k) n); rewrite fmap_cons;
    rewrite (retry_loop_retry _ _ _ _ _ _ _ Hi (retryable_is_caught _ Hr) Hr).
  - exists w. split; [|by rewrite !Nat.add_0_r].
    replace (Z.of_nat k <? max_retries) with false
      by (symmetry; apply Z.ltb_ge; lia).
    by rewrite Hi.
  - replace (Z.of_nat k <? max_retries) with true
      by (symmetry; apply Z.ltb_lt; lia).
    destruct (backoff_sleep (Z.of_nat k) w1) as (w2 & Hb & Hc2 & Hs2 & Hg2);
      [lia | rewrite Hg; apply Hrng |].
    unfold mbind at 1, M_bind at 1. rewrite Hb.
    destruct (IH (S k) (Some err) w2) as (w_last & Heq & Hc3 & Hs3 & Hg3);
      [lia | rewrite Hg2, Hg; apply Hrng |].
    exists w_last. split; [exact Heq|].
    rewrite Hc3, Hs3, Hg3, Hc2, Hs2, Hg2, Hc, Hs, Hg.
    repeat split; lia.
Qed.

End RetryExhaustion.

(** For a retry count that is given and not zero, the executor does what C2
    says: an operation that always raises a retryable error is invoked
    [n + 1] times, with [n] sleeps in between, and the call ends exactly as
    the last invocation does, raising the error that invocation raised. *)
Lemma retry_exhaustion {R A} (cfg : Settings.t) (n : Z) (backoff_base : option Z)
    (func : operation R A) (w : World R) :
  0 < n →
  (∀ e : Env R, ∃ err e',
     func e = (Raise err, e') ∧ RetryHandler.is_retryable_error err = true) →
  0 <= Py.or_int backoff_base (Settings.RETRY_BACKOFF_BASE cfg) →
  0 <= Settings.RETRY_BACKOFF_BASE cfg →
  0 <= Settings.RETRY_BACKOFF_MAX cfg →
  (∀ i, 0 <= rng w i)%Q →
  ∃ w_last err w',
    RetryHandler.retry_on_failure cfg (Some n) backoff_base
      RetryHandler.default_retryable_exceptions func w = (Raise err, w') ∧
    invoke func w_last = (Raise err, w') ∧
    calls w_last = (calls w + Z.to_nat n)%nat ∧
    calls w' = (calls w + Z.to_nat n + 1)%nat ∧
    length (sleeps w') = (length (sleeps w) + Z.to_nat n)%nat.
Proof.
  intros Hn Hf Hb Hb' Hm Hrng. unfold RetryHandler.retry_on_failure.
  assert (Py.or_int (Some n) (Settings.MAX_RETRIES cfg) = n) as ->.
  { unfold Py.or_int. destruct (Z.eqb_spec n 0); [lia | done]. }
  rewrite range_succ by lia.
  destruct (exhaust_loop cfg func n
              (Py.or_int backoff_base (Settings.RETRY_BACKOFF_BASE cfg))
              Hf) with (m := Z.to_nat n) (k := 0%nat) (last := @None exn)
              (w := w) as (w_last & Heq & Hc & Hs & _); try done.
  { unfold Py.or_int at 1.
    destruct (Z.eqb_spec (Py.or_int backoff_base
                            (Settings.RETRY_BACKOFF_BASE cfg)) 0); done. }
  { lia. }
  destruct (invoke_fails func Hf w_last) as (err & w' & Hi & _ & Hc' & Hs' & _).
  exists w_last, err, w'. rewrite Heq. repeat split; try done.
  - rewrite Hc', Hc. lia.
  - by rewrite Hs', Hs.
Qed.

(** C2 fails at [max_retries = 0]: [0 or settings.MAX_RETRIES] selects the
    configured count, so with the default settings an operation that always
    raises a connection error is invoked four times, with three sleeps,
    where a retry count of zero asks for one invocation and none. *)
Theorem zero_max_retries_is_overridden :
  let '(r, w) :=
    RetryHandler.retry_on_failure Settings.default (Some 0) None
      RetryHandler.default_retryable_exceptions
      (Samples.always_raise (A:=value) Samples.connection_error)
      (Samples.world ()) in
  r = Raise Samples.connection_error ∧ calls w = 4%nat ∧
  length (sleeps w) = 3%nat.
Proof. vm_compute. done. Qed.

(** With [max_retries = 3] the operation is invoked four times. *)
Example three_retries_four_calls :
  calls (RetryHandler.retry_on_failure Settings.default (Some 3) None
           RetryHandler.default_retryable_exceptions
           (Samples.always_raise (A:=value) Samples.connection_error)
           (Samples.world ())).2 = 4%nat.
Proof. vm_compute. done. Qed.

(** ** Backoff *)

Section BackoffProperties.
Import RetryHandler.

Lemma jitter_factor_bounds r :
  (0 <= r)%Q → (r < 1)%Q →
  (1 # 2 <= jitter_factor r)%Q ∧ (jitter_factor r < 1)%Q.
Proof. unfold jitter_factor. intros; split; lra. Qed.

(** For a base and a cap that are given and not zero, the backoff is
    [min(base ** attempt, cap)] scaled by a factor in [[0.5, 1.0]]. *)
Lemma calculate_backoff_formula {R} (cfg : Settings.t) (attempt b m : Z)
    (w : World R) :
  0 <= attempt → b ≠ 0 → m ≠ 0 →
  (0 <= rng w (draws w))%Q → (rng w (draws w) < 1)%Q →
  ideal_backoff cfg attempt (Some b) (Some m) = Z.min (b ^ attempt) m ∧
  ∃ f, (1 # 2 <= f)%Q ∧ (f <= 1)%Q ∧
    fst (calculate_backoff cfg attempt (Some b) (Some m) true w)
      = Return (inject_Z (Z.min (b ^ attempt) m) * f)%Q ∧
    fst (calculate_backoff cfg attempt (Some b) (Some m) false w)
      = Return (inject_Z (Z.min (b ^ attempt) m)).
Proof.
  intros Ha Hb Hm Hr0 Hr1.
  assert (ideal_backoff cfg attempt (Some b) (Some m) = Z.min (b ^ attempt) m)
    as Hi.
  { unfold ideal_backoff, Py.or_int.
    destruct (Z.eqb_spec b 0); [done|]. by destruct (Z.eqb_spec m 0). }
  split; [done|]. exists (jitter_factor (rng w (draws w))).
  destruct (jitter_factor_bounds _ Hr0 Hr1) as [H1 H2].
  repeat split; [done | lra | |]; unfold calculate_backoff; by rewrite Hi.
Qed.

(** The backoff after jitter lies between half the backoff before jitter
    and the whole of it. *)
Lemma realized_backoff_bounds {R} (cfg : Settings.t) (attempt : Z)
    (base max_backoff : option Z) (w : World R) :
  0 <= ideal_backoff cfg attempt base max_backoff →
  (0 <= rng w (draws w))%Q → (rng w (draws w) < 1)%Q →
  ∃ backoff,
    fst (calculate_backoff cfg attempt base max_backoff true w)
      = Return backoff ∧
    ((1 # 2) * inject_Z (ideal_backoff cfg attempt base max_backoff)
       <= backoff)%Q ∧
    (backoff <= inject_Z (ideal_backoff cfg attempt base max_backoff))%Q.
Proof.
  intros Hi Hr0 Hr1. eexists. split; [reflexivity|].
  destruct (jitter_factor_bounds _ Hr0 Hr1) as [H1 H2].
  rewrite Zle_Qle in Hi. change (inject_Z 0) with 0%Q in Hi.
  split; nra.
Qed.

(** With the default settings the backoffs before jitter are 1, 2, 4 and
    8 seconds for the attempts 0 to 3, and 60 seconds from attempt 6 on. *)
Lemma default_backoffs :
  (λ attempt, ideal_backoff Settings.default attempt None None)
    <$> [0; 1; 2; 3] = [1; 2; 4; 8] ∧
  ∀ attempt, 6 <= attempt →
    ideal_backoff Settings.default attempt None None = 60.
Proof.
  split; [done|]. intros a Ha. unfold ideal_backoff. simpl.
  apply Z.min_r. transitivity (2 ^ 6); [done|].
  apply Z.pow_le_mono_r; lia.
Qed.

(** C5 fails for a zero cap (and likewise a zero base):
    [max_backoff or settings.RETRY_BACKOFF_MAX] replaces it by the
    configured cap, so attempt 3 with base 2 and cap 0 backs off 8 seconds
    before jitter, and at least 4 seconds after it, where
    [min(2 ** 3, 0)] is 0. *)
Theorem zero_cap_is_overridden :
  ideal_backoff Settings.default 3 (Some 2) (Some 0) = 8 ∧
  Z.min (2 ^ 3) 0 = 0 ∧
  fst (calculate_backoff Settings.default 3 (Some 2) (Some 0) false
         (Samples.world ())) = Return (inject_Z 8) ∧
  match fst (calculate_backoff Settings.default 3 (Some 2) (Some 0) true
               (Samples.world ())) with
  | Return backoff => (4 <= backoff)%Q
  | Raise _ => False
  end.
Proof. repeat split. vm_compute. discriminate. Qed.

End BackoffProperties.

(** ** The cache key *)

Section CacheKeyProperties.
Import BaseTool.
Local Arguments String.append !_ _ / : simpl nomatch.

Global Instance item_le_trans : Transitive item_le.
Proof. intros x y z. unfold item_le. apply transitivity. Qed.

Global Instance item_le_total : Total item_le.
Proof. intros x y. unfold item_le. apply total, _. Qed.

(** In a dictionary a key has one value. *)
Lemma same_key_same_item (l : list (string * scalar)) p q :
  NoDup l.*1 → p ∈ l → q ∈ l → p.1 = q.1 → p = q.
Proof.
  induction l as [|x l IH]; intros Hnd Hp Hq Hk; [by inversion Hp|].
  rewrite fmap_cons in Hnd. apply NoDup_cons in Hnd as [Hx Hnd].
  apply elem_of_cons in Hp as [-> | Hp];
    apply elem_of_cons in Hq as [-> | Hq]; try done.
  - destruct Hx. rewrite Hk. apply list_elem_of_fmap. eauto.
  - destruct Hx. rewrite <- Hk. apply list_elem_of_fmap. eauto.
  - by apply IH.
Qed.

(** Sorting forgets the insertion order. *)
Lemma sorted_permutation l1 l2 :
  NoDup l1.*1 → l1 ≡ₚ l2 → sorted l1 = sorted l2.
Proof.
  intros Hnd Hp. unfold sorted.
  apply (Sorted_unique_strong item_le).
  - intros p q Hp1 Hq2 Hpq Hqp.
    rewrite merge_sort_Permutation in Hp1, Hq2. rewrite <- Hp in Hq2.
    apply (same_key_same_item l1); try done.
    by apply (anti_symm String.le).
  - apply Sorted_merge_sort, _.
  - apply Sorted_merge_sort, _.
  - by rewrite !merge_sort_Permutation.
Qed.

Lemma sorted_keys l1 l2 :
  l1.*1 ≡ₚ l2.*1 → (sorted l1).*1 = (sorted l2).*1.
Proof.
  intros Hp. apply (Sorted_unique String.le).
  - apply (Sorted_fmap _ item_le); [done|]. apply Sorted_merge_sort, _.
  - apply (Sorted_fmap _ item_le); [done|]. apply Sorted_merge_sort, _.
  - unfold sorted. by rewrite !merge_sort_Permutation.
Qed.

Lemma string_app_assoc (a b c : string) :
  (a +:+ b) +:+ c = a +:+ (b +:+ c).
Proof. induction a as [|x a IH]; [done|]. cbn. by rewrite IH. Qed.

(** Two texts without the separator, each followed by the separator,
    agree as wholes only if they agree part by part. *)
Lemma split_at_separator c : ∀ s1 s2 r1 r2,
  has_char c s1 = false → has_char c s2 = false →
  s1 +:+ String c r1 = s2 +:+ String c r2 → s1 = s2 ∧ r1 = r2.
Proof.
  induction s1 as [|a s1 IH]; intros [|b s2] r1 r2 H1 H2 Heq; cbn in *.
  - by simplify_eq.
  - simplify_eq. by rewrite Ascii.eqb_refl in H2.
  - simplify_eq. by rewrite Ascii.eqb_refl in H1.
  - apply orb_false_iff in H1 as [_ H1]. apply orb_false_iff in H2 as [_ H2].
    simplify_eq. destruct (IH _ _ _ H1 H2 H) as [-> ->]. done.
Qed.

Lemma concat_cons2 sep x y l :
  String.concat sep (x :: y :: l) = x +:+ sep +:+ String.concat sep (y :: l).
Proof. done. Qed.

(** Over the same keys in the same order, the joined items determine the
    text of every value. *)
Lemma param_str_inj : ∀ l1 l2 : list (string * scalar),
  l1.*1 = l2.*1 → separator_free l1 → separator_free l2 →
  String.concat "&" (render_item <$> l1)
    = String.concat "&" (render_item <$> l2) →
  rendering <$> l1 = rendering <$> l2.
Proof.
  unfold separator_free.
  induction l1 as [|[k1 v1] l1 IH]; intros [|[k2 v2] l2] Hk H1 H2 Heq;
    try done.
  apply Forall_cons in H1 as [Hv1 H1]. apply Forall_cons in H2 as [Hv2 H2].
  rewrite !fmap_cons in Hk. injection Hk as Hk1 Hk. cbn [fst snd] in *.
  subst k2. rewrite !fmap_cons in Heq.
  change (render_item (k1, v1)) with (k1 +:+ "=" +:+ Py.str v1) in Heq.
  change (render_item (k1, v2)) with (k1 +:+ "=" +:+ Py.str v2) in Heq.
  change (rendering <$> (k1, ?v) :: ?l) with (Py.str v :: (rendering <$> l)).
  destruct l1 as [|p1 l1], l2 as [|p2 l2]; try done.
  - change (String.concat "&" [?x]) with x in Heq.
    do 2 apply (inj (String.app _)) in Heq. by rewrite Heq.
  - rewrite !fmap_cons, !concat_cons2, !string_app_assoc in Heq.
    do 2 apply (inj (String.app _)) in Heq.
    apply (split_at_separator "&" _ _
             (String.concat "&" (render_item p1 :: (render_item <$> l1)))
             (String.concat "&" (render_item p2 :: (render_item <$> l2))))
      in Heq as [Hs Hr]; [|done..].
    rewrite Hs. f_equal. apply IH; [done..|]. by rewrite !fmap_cons.
Qed.

(** C7, as amended: the key does not depend on the order the parameters
    were inserted in; and two parameter maps over the same keys get
    different keys when the texts of their values contain no ["&"] and
    differ at some key. *)
Theorem cache_key_deterministic (method : string)
    (params1 params2 : list (string * scalar)) :
  NoDup params1.*1 →
  NoDup params2.*1 →
  (params1 ≡ₚ params2 →
     _get_cache_key method params1 = _get_cache_key method params2) ∧
  (params1.*1 ≡ₚ params2.*1 →
     separator_free params1 → separator_free params2 →
     (∃ k v1 v2, (k, v1) ∈ params1 ∧ (k, v2) ∈ params2 ∧
                 Py.str v1 ≠ Py.str v2) →
     _get_cache_key method params1 ≠ _get_cache_key method params2).
Proof.
  intros Hnd1 Hnd2. split.
  - intros Hp. unfold _get_cache_key. by erewrite sorted_permutation.
  - intros Hp H1 H2 (k & v1 & v2 & Hv1 & Hv2 & Hne) Heq.
    unfold _get_cache_key in Heq.
    do 2 apply (inj (String.app _)) in Heq.
    pose proof (sorted_keys _ _ Hp) as Hk.
    apply param_str_inj in Heq; [|done|unfold sorted, separator_free..].
    2,3: by rewrite merge_sort_Permutation.
    assert ((k, v1) ∈ sorted params1) as Hin
      by (unfold sorted; by rewrite merge_sort_Permutation).
    apply list_elem_of_lookup in Hin as [i Hi].
    assert ((sorted params2).*1 !! i = Some k) as Hi2.
    { by rewrite <- Hk, list_lookup_fmap, Hi. }
    rewrite list_lookup_fmap in Hi2.
    destruct (sorted params2 !! i) as [[k' v2']|] eqn:E; [|done].
    simpl in Hi2. simplify_eq.
    assert (Py.str v1 = Py.str v2') as Hs.
    { assert ((rendering <$> sorted params1) !! i
              = (rendering <$> sorted params2) !! i) as Hl by by rewrite Heq.
      rewrite !list_lookup_fmap, Hi, E in Hl. by simplify_eq/=. }
    assert ((k, v2') ∈ params2) as Hin2.
    { apply list_elem_of_lookup_2 in E. unfold sorted in E.
      by rewrite merge_sort_Permutation in E. }
    pose proof (same_key_same_item params2 _ _ Hnd2 Hin2 Hv2 eq_refl).
    by simplify_eq.
Qed.

Lemma cache_key_deterministic_witness :
  _get_cache_key "search"
    [("query", SStr "egfr"); ("limit", SInt 10)]
  = _get_cache_key "search"
      [("limit", SInt 10); ("query", SStr "egfr")] ∧
  _get_cache_key "search"
    [("query", SStr "egfr"); ("limit", SInt 10)]
  ≠ _get_cache_key "search"
      [("query", SStr "egfr"); ("limit", SInt 20)].
Proof.
  split.
  - apply (cache_key_deterministic "search"
             [("query", SStr "egfr"); ("limit", SInt 10)]
             [("limit", SInt 10); ("query", SStr "egfr")]).
    + compute_done.
    + compute_done.
    + apply Permutation_swap.
  - apply (cache_key_deterministic "search"
             [("query", SStr "egfr"); ("limit", SInt 10)]
             [("query", SStr "egfr"); ("limit", SInt 20)]).
    + compute_done.
    + compute_done.
    + reflexivity.
    + repeat constructor.
    + repeat constructor.
    + exists "limit", (SInt 10), (SInt 20).
      split; [|split].
      * apply list_elem_of_In. simpl. tauto.
      * apply list_elem_of_In. simpl. tauto.
      * vm_compute. discriminate.
Defined.

(** C7 as stated fails in its second half: the key is built from the
    text of the values, so the integer [1] and the string ["1"] collide,
    and so do values that contain the separator. *)
Lemma cache_key_collisions :
  _get_cache_key "search" [("limit", SInt 1)]
    = _get_cache_key "search" [("limit", SStr "1")] ∧
  _get_cache_key "search" [("a", SStr "1&b=2"); ("b", SStr "3")]
    = _get_cache_key "search" [("a", SStr "1"); ("b", SStr "2&b=3")].
Proof. split; vm_compute; reflexivity. Qed.

End CacheKeyProperties.

(** ** The result cache *)

Section CacheProperties.
Import BaseTool.
Context {R : Type}.
Variable cfg : Settings.t.

Lemma set_cache_same (w : World R) : set_cache (cache w) w = w.
Proof. by destruct w. Qed.

Lemma Qltb_lt a b : Qltb a b = true ↔ (a < b)%Q.
Proof.
  unfold Qltb. rewrite negb_true_iff, <- not_true_iff_false, Qle_bool_iff.
  split; [apply Qnot_le_lt | apply Qlt_not_le].
Qed.

Lemma fresh_lt t timestamp :
  fresh cfg t timestamp = true
  ↔ (t - timestamp < inject_Z (Settings.CACHE_TTL cfg))%Q.
Proof. apply Qltb_lt. Qed.

Lemma fresh_ge t timestamp :
  fresh cfg t timestamp = false
  ↔ (inject_Z (Settings.CACHE_TTL cfg) <= t - timestamp)%Q.
Proof.
  rewrite <- not_true_iff_false, fresh_lt.
  split; [apply Qnot_lt_le | apply Qle_not_lt].
Qed.

(** C6, as amended: with caching enabled, a lookup returns the stored
    value while the entry is younger than the TTL and leaves the store
    alone; it returns [None] for a key that was never stored; it returns
    [None] for an entry whose age has reached the TTL and removes that
    entry; and a save stores the value stamped with the current time,
    replacing what was there, so that a lookup at once returns it. *)
Theorem cache_lookup_and_save (k : string) (w : World R) :
  Settings.ENABLE_CACHE cfg = true →
  (∀ t v, cache w !! k = Some (t, v) →
     (now (env w) - t < inject_Z (Settings.CACHE_TTL cfg))%Q →
     _get_from_cache cfg k w = (Return v, w)) ∧
  (cache w !! k = None → _get_from_cache cfg k w = (Return VNone, w)) ∧
  (∀ t v, cache w !! k = Some (t, v) →
     (inject_Z (Settings.CACHE_TTL cfg) <= now (env w) - t)%Q →
     ∃ w', _get_from_cache cfg k w = (Return VNone, w') ∧
           cache w' = delete k (cache w) ∧ cache w' !! k = None ∧
           env w' = env w) ∧
  (∀ v, ∃ w', _save_to_cache cfg k v w = (Return (), w') ∧
              cache w' = <[k := (now (env w), v)]> (cache w) ∧
              cache w' !! k = Some (now (env w), v) ∧
              env w' = env w ∧
              (0 < Settings.CACHE_TTL cfg →
               _get_from_cache cfg k w' = (Return v, w'))).
Proof.
  intros He. unfold _get_from_cache, _save_to_cache. rewrite He. cbn [negb].
  repeat split.
  - intros t v -> Hf. apply fresh_lt in Hf. by rewrite Hf.
  - by intros ->.
  - intros t v -> Hf. apply fresh_ge in Hf. rewrite Hf.
    eexists. repeat split. cbn. apply lookup_delete_eq.
  - intros v. eexists. split; [reflexivity|]. cbn [set_cache cache env].
    repeat split; [apply lookup_insert_eq|].
    intros Httl. rewrite lookup_insert_eq.
    assert (fresh cfg (now (env w)) (now (env w)) = true) as ->; [|done].
    apply fresh_lt. rewrite Zlt_Qlt in Httl.
    change (inject_Z 0) with 0%Q in Httl. lra.
Qed.

End CacheProperties.

Lemma cache_lookup_and_save_witness :
  BaseTool._get_from_cache Settings.default "search:query=egfr"
    (Samples.world_caching () "search:query=egfr" Samples.papers)
  = (Return Samples.papers,
     Samples.world_caching () "search:query=egfr" Samples.papers).
Proof.
  apply (cache_lookup_and_save Settings.default "search:query=egfr"
           (Samples.world_caching () "search:query=egfr" Samples.papers)
           eq_refl) with (t := 0%Q).
  - reflexivity.
  - reflexivity.
Defined.

(** C6 as stated fails when [settings.ENABLE_CACHE] is off: a save stores
    nothing, and a lookup returns [None] for an entry that is stored and
    younger than the TTL. *)
Lemma disabled_cache_neither_stores_nor_serves :
  cache (BaseTool._save_to_cache Samples.no_cache "search:query=egfr"
           Samples.papers (Samples.world ())).2 !! "search:query=egfr" = None ∧
  cache (Samples.world_caching () "search:query=egfr" Samples.papers)
    !! "search:query=egfr" = Some (0%Q, Samples.papers) ∧
  (BaseTool._get_from_cache Samples.no_cache "search:query=egfr"
     (Samples.world_caching () "search:query=egfr" Samples.papers)).1
  = Return VNone.
Proof. repeat split. Qed.

(** ** The envelope *)

Section EnvelopeProperties.
Import BaseTool.
Context {R : Type}.
Variable cfg : Settings.t.
Variable self : BaseTool.t.

Local Arguments String.append !_ _ / : simpl nomatch.

Lemma handle_errors_nonempty e : handle_errors e ≠ "".
Proof.
  unfold handle_errors.
  repeat (destruct (String.eqb _ _); [done|]).
  destruct (exc_name e); done.
Qed.

(** The two ways a lookup can end: with a stored value that is not
    [None], or with [None] and the store as it was or without the key. *)
Lemma get_from_cache_cases key (w : World R) :
  (∃ t v, Settings.ENABLE_CACHE cfg = true ∧ cache w !! key = Some (t, v) ∧
          fresh cfg (now (env w)) t = true ∧ v ≠ VNone ∧
          _get_from_cache cfg key w = (Return v, w))
  ∨ (∃ c', _get_from_cache cfg key w = (Return VNone, set_cache c' w) ∧
           (c' = cache w ∨ c' = delete key (cache w))).
Proof.
  unfold _get_from_cache.
  destruct (Settings.ENABLE_CACHE cfg); simpl.
  - destruct (cache w !! key) as [[t v]|] eqn:E.
    + destruct (fresh _ _ _) eqn:Q; [|right; eauto].
      destruct (decide (is_not_None v = true)) as [Hv|Hv].
      * left. exists t, v. repeat split; try done. by intros ->.
      * right. exists (cache w). rewrite set_cache_same.
        destruct v; try done. eauto.
    + right. exists (cache w). rewrite set_cache_same. eauto.
  - right. exists (cache w). rewrite set_cache_same. eauto.
Qed.

Ltac run_envelope :=
  unfold _execute_with_monitoring, try_except, monitored_body,
    monitored_handler, latency_since, log_tool_call, emit, time_time,
    invoke, mbind, M_bind, mret, M_ret.

Section Call.
Variables method_name query : string.
Variable func : list (string * scalar) → operation R value.
Variable kwargs : list (string * scalar).

Let key := _get_cache_key method_name (("query", SStr query) :: kwargs).
Let call :=
  _execute_with_monitoring (R:=R) cfg self method_name query func kwargs.

(** A lookup that finds a valid entry: the call returns the stored
    value and touches neither the environment nor the cache. *)
Lemma envelope_hit (w : World R) t v :
  Settings.ENABLE_CACHE cfg = true →
  cache w !! key = Some (t, v) →
  fresh cfg (now (env w)) t = true →
  v ≠ VNone →
  ∃ r w', call w = (Return r, w') ∧ is_success self query true v r ∧
          env w' = env w ∧ cache w' = cache w ∧ calls w' = calls w ∧
          sleeps w' = sleeps w ∧ draws w' = draws w.
Proof.
  intros He Hl Hf Hv. subst call. run_envelope. fold key.
  unfold _get_from_cache. rewrite He. cbn [negb]. rewrite Hl, Hf.
  assert (is_not_None v = true) as -> by by destruct v.
  eexists _, _. split; [reflexivity|].
  split; [|done].
  repeat split. eexists. split; [reflexivity|]. repeat split; by eexists.
Qed.

(** A lookup that ends with [None]: the operation is invoked once, and
    the call reports what the operation and the parse step did. *)
Lemma envelope_miss (w : World R) c' :
  _get_from_cache cfg key w = (Return VNone, set_cache c' w) →
  ∃ r w', call w = (Return r, w') ∧
          env w' = snd (func kwargs (env w)) ∧
          calls w' = S (calls w) ∧
          sleeps w' = sleeps w ∧ draws w' = draws w ∧
          match fst (func kwargs (env w)) with
          | Return raw =>
              match parse_results self raw with
              | Return v =>
                  is_success self query false v r ∧
                  cache w' =
                    if Settings.ENABLE_CACHE cfg
                    then <[key := (now (snd (func kwargs (env w))), v)]> c'
                    else c'
              | Raise e => is_failure self query e r ∧ cache w' = c'
              end
          | Raise e => is_failure self query e r ∧ cache w' = c'
          end.
Proof.
  intros Hl. subst call. run_envelope. fold key. rewrite Hl.
  cbn [is_not_None set_cache env calls].
  destruct (func kwargs (env w)) as [[raw|e] e'] eqn:Hf; cbn [fst snd].
  - destruct (parse_results self raw) as [v|e] eqn:Hp.
    + unfold _save_to_cache. destruct (Settings.ENABLE_CACHE cfg).
      * eexists _, _. split; [reflexivity|]. cbn.
        repeat split. eexists. split; [reflexivity|].
        repeat split; by eexists.
      * eexists _, _. split; [reflexivity|]. cbn.
        repeat split. eexists. split; [reflexivity|].
        repeat split; by eexists.
    + eexists _, _. split; [reflexivity|]. cbn.
      repeat split. eexists. split; [reflexivity|].
      repeat split; by eexists.
  - eexists _, _. split; [reflexivity|]. cbn.
    repeat split. eexists. split; [reflexivity|].
    repeat split; by eexists.
Qed.


(** C8: when the lookup finds an entry that is younger than the TTL and
    whose value is not [None], the call returns that value as a success
    marked [cached], and leaves the environment as it was: no bucket of
    the rate limiter is touched, the clock has not moved, and the
    operation has not been invoked. *)
Theorem cache_hit_skips_limiter_and_network (w : World R) (t : Q)
    (v : value) :
  Settings.ENABLE_CACHE cfg = true →
  cache w !! key = Some (t, v) →
  (now (env w) - t < inject_Z (Settings.CACHE_TTL cfg))%Q →
  v ≠ VNone →
  ∃ r w', call w = (Return r, w') ∧
          is_success self query true v r ∧
          limiter (env w') = limiter (env w) ∧
          env w' = env w ∧
          calls w' = calls w ∧
          cache w' = cache w.
Proof.
  intros He Hl Hf Hv. apply fresh_lt in Hf.
  destruct (envelope_hit w t v He Hl Hf Hv)
    as (r & w' & Hc & Hs & Henv & Hcache & Hcalls & _).
  exists r, w'. by rewrite Henv.
Qed.

(** C10: a stored [None] is never served.  Whatever its age, the call
    invokes the operation again and reports what this invocation and
    the parse step did, never a cached result; and with caching enabled
    a parse step that returns [None] does store it. *)
Theorem stored_None_is_a_miss (w : World R) :
  (∀ t, cache w !! key = Some (t, VNone) →
     ∃ r w', call w = (Return r, w') ∧
             calls w' = S (calls w) ∧
             env w' = snd (func kwargs (env w)) ∧
             observe (Return r)
               = Some (uncached_observation self
                         (fst (func kwargs (env w)))) ∧
             ∀ m, metadata r = Some m →
                  m !! "cached" ≠ Some (VBool true)) ∧
  (∀ raw, Settings.ENABLE_CACHE cfg = true →
     cache w !! key = None →
     fst (func kwargs (env w)) = Return raw →
     parse_results self raw = Return VNone →
     ∃ r w', call w = (Return r, w') ∧
             success r = true ∧ data r = VNone ∧
             cache w' !! key
               = Some (now (snd (func kwargs (env w))), VNone)).
Proof.
  split.
  - intros t Hl.
    destruct (get_from_cache_cases key w) as
      [(t' & v & _ & Hl' & _ & Hv & _) | (c' & Hm & _)].
    { rewrite Hl in Hl'. by simplify_eq. }
    destruct (envelope_miss w c' Hm)
      as (r & w' & Hc & Henv & Hcalls & _ & _ & Hr).
    exists r, w'. repeat split; try done.
    + unfold uncached_observation, observe.
      destruct (fst (func kwargs (env w))) as [raw|e].
      * destruct (parse_results self raw) as [v|e].
        -- destruct Hr as [(-> & -> & -> & _) _]. done.
        -- destruct Hr as [(-> & -> & -> & _) _]. done.
      * destruct Hr as [(-> & -> & -> & _) _]. done.
    + intros m Hm'.
      destruct (fst (func kwargs (env w))) as [raw|e].
      * destruct (parse_results self raw) as [v|e].
        -- destruct Hr as [(_ & _ & _ & m' & Hm'' & Hcached & _) _].
           rewrite Hm' in Hm''. simplify_eq. by rewrite Hcached.
        -- destruct Hr as [(_ & _ & _ & m' & Hm'' & Hcached & _) _].
           rewrite Hm' in Hm''. simplify_eq. by rewrite Hcached.
      * destruct Hr as [(_ & _ & _ & m' & Hm'' & Hcached & _) _].
        rewrite Hm' in Hm''. simplify_eq. by rewrite Hcached.
  - intros raw He Hl Hf Hp.
    destruct (get_from_cache_cases key w) as
      [(t' & v & _ & Hl' & _) | (c' & Hm & Hc')].
    { rewrite Hl in Hl'. done. }
    destruct (envelope_miss w c' Hm) as (r & w' & Hc & _ & _ & _ & _ & Hr).
    rewrite Hf, Hp, He in Hr. destruct Hr as [(Hs & Hd & _) Hcache].
    exists r, w'. repeat split; try done.
    rewrite Hcache. apply lookup_insert_eq.
Qed.

End Call.
End EnvelopeProperties.

(** ** Caching as an optimisation *)

Section CachingProperties.
Import BaseTool.
Context {R : Type}.
Variable cfg : Settings.t.
Variable self : BaseTool.t.
Variables method_name query : string.
Variable func : list (string * scalar) → operation R value.
Variable kwargs : list (string * scalar).

Let key := _get_cache_key method_name (("query", SStr query) :: kwargs).
Let enabled := Settings.with_cache true cfg.





End CachingProperties.

(** ** The properties at concrete inputs *)

(** A call that finds nothing cached debits the bucket of the rate-limited
    operation: the fresh bucket of three tokens holds two afterwards. *)
Example cache_miss_debits_a_token :
  let w' :=
    (BaseTool._execute_with_monitoring Settings.default
       Samples.passthrough_tool "search_pubmed" "egfr"
       (λ _, Samples.limited_fetch) [] (Samples.world ())).2 in
  calls w' = 1%nat ∧
  RateLimiter.tokens <$> (limiter (env w') !! "pubmed") = Some (2 # 1)%Q.
Proof. vm_compute. done. Qed.



Lemma cache_hit_skips_limiter_and_network_witness :
  ∃ r w',
    BaseTool._execute_with_monitoring Settings.default
      Samples.passthrough_tool "search_pubmed" "egfr"
      (λ _, Samples.limited_fetch) []
      (Samples.world_caching () "search_pubmed:query=egfr" Samples.papers)
    = (Return r, w') ∧
    BaseTool.is_success Samples.passthrough_tool "egfr" true Samples.papers r ∧
    limiter (env w') = ∅ ∧
    env w' = env (Samples.world ()) ∧
    calls w' = 0%nat ∧
    cache w' = {[ "search_pubmed:query=egfr" := (0%Q, Samples.papers) ]}.
Proof.
  apply (cache_hit_skips_limiter_and_network Settings.default
           Samples.passthrough_tool "search_pubmed" "egfr"
           (λ _, Samples.limited_fetch) []
           (Samples.world_caching () "search_pubmed:query=egfr"
              Samples.papers) 0%Q Samples.papers).
  - reflexivity.
  - reflexivity.
  - reflexivity.
  - discriminate.
Defined.

Lemma stored_None_is_a_miss_witness :
  ∃ r w',
    BaseTool._execute_with_monitoring Settings.default
      Samples.passthrough_tool "get_drug_info" "CHEMBL25"
      (λ _, Samples.always_return VNone) []
      (Samples.world_caching () "get_drug_info:query=CHEMBL25" VNone)
    = (Return r, w') ∧
    calls w' = 1%nat.
Proof.
  destruct (proj1 (stored_None_is_a_miss Settings.default
                     Samples.passthrough_tool "get_drug_info" "CHEMBL25"
                     (λ _, Samples.always_return VNone) []
                     (Samples.world_caching ()
                        "get_drug_info:query=CHEMBL25" VNone)) 0%Q)
    as (r & w' & Hcall & Hcalls & _).
  - reflexivity.
  - exists r, w'. split; [exact Hcall | exact Hcalls].
Defined.


(** With caching on, the second of two calls within the TTL leaves the
    call count at one and returns the data of the first. *)
Example second_call_served_from_cache :
  let '(rs, w) :=
    repeat_call Settings.default Samples.passthrough_tool "search_pubmed"
      "egfr" (λ _, Samples.limited_fetch) [] [0%Q; 5%Q] (Samples.world ()) in
  calls w = 1%nat ∧
  observe <$> rs
  = [Some (true, Samples.papers, None); Some (true, Samples.papers, None)].
Proof. vm_compute. done. Qed.


(** * Further properties of the rate limiter *)

Section RateLimiterRuns.
Import RateLimiter Runs.

Lemma refill_tokens_le b now :
  (tokens (refill b now) <= tokens b + (now - last_update b) * rate b)%Q.
Proof.
  simpl. unfold Py.min. destruct (Qle_bool _ _) eqn:E; [|lra].
  by apply Qle_bool_iff in E.
Qed.

Lemma refill_tokens_le_capacity b now :
  (tokens (refill b now) <= capacity b)%Q.
Proof. simpl. apply py_min_le_l. Qed.

(** What [consume] hands out plus what it leaves is what the refill
    produced. *)
Lemma consume_balance b n now :
  (inject_Z (if (consume b n now).1 then n else 0) + tokens (consume b n now).2
   == tokens (refill b now))%Q.
Proof.
  unfold consume. destruct (Qle_bool _ _); cbn [fst snd tokens].
  - ring.
  - change (inject_Z 0) with 0%Q. ring.
Qed.

Lemma consume_rate b n now :
  rate (consume b n now).2 = rate b ∧
  capacity (consume b n now).2 = capacity b.
Proof. unfold consume. by destruct (Qle_bool _ _). Qed.

Lemma consume_last_update b n now :
  last_update (consume b n now).2 = now.
Proof. unfold consume. by destruct (Qle_bool _ _). Qed.

Lemma granted_balance calls : ∀ b now,
  sane b now →
  Forall (λ '(delay, n), (0 <= delay)%Q ∧ 0 <= n) calls →
  let '(total, b', now') := granted b now calls in
  (inject_Z total + tokens b'
   <= tokens b + (now' - last_update b) * rate b)%Q ∧
  sane b' now' ∧ (now <= now')%Q.
Proof.
  induction calls as [|[delay n] calls IH]; intros b now Hb Hcalls.
  - cbn [granted]. split; [|split; [done|lra]].
    destruct Hb as (Hr & Hw & Ht). change (inject_Z 0) with 0%Q.
    assert (0 <= (now - last_update b) * rate b)%Q
      by (apply Qmult_le_0_compat; lra).
    lra.
  - apply Forall_cons in Hcalls as [[Hd Hn] Hcalls]. cbn [granted].
    assert (sane b (now + delay)) as Hb' by (eapply sane_later; [|done]; lra).
    pose proof (consume_sane b n _ Hn Hb') as Hc.
    pose proof (consume_balance b n (now + delay)) as Hbal.
    pose proof (refill_tokens_le b (now + delay)) as Hre.
    pose proof (consume_last_update b n (now + delay)) as Hlu.
    destruct (consume_rate b n (now + delay)) as [Hrate _].
    destruct (consume b n (now + delay)) as [ok b1]. cbn [fst snd] in *.
    specialize (IH b1 (now + delay)%Q Hc Hcalls).
    destruct (granted b1 (now + delay) calls) as [[total b'] now'].
    destruct IH as (IH & Hs & Hle). rewrite Hlu, Hrate in IH.
    split; [|split; [done|lra]].
    rewrite inject_Z_plus. destruct ok; lra.
Qed.

(** X1.  No over-issuance: along any sequence of [consume] calls the
    tokens handed out never exceed what the bucket held at the start plus
    what the rate refills over the time that has passed, and so never
    exceed the capacity plus that refill. *)
Theorem no_over_issuance (b : TokenBucket) (now : Q)
    (calls : list (Q * Z)) :
  (0 <= rate b)%Q → within_capacity b → (last_update b <= now)%Q →
  Forall (λ '(delay, n), (0 <= delay)%Q ∧ 0 <= n) calls →
  let '(total, _, now') := granted b now calls in
  (inject_Z total <= tokens b + (now' - last_update b) * rate b)%Q ∧
  (inject_Z total <= capacity b + (now' - last_update b) * rate b)%Q.
Proof.
  intros Hr Hw Ht Hcalls.
  pose proof (granted_balance calls b now (conj Hr (conj Hw Ht)) Hcalls) as H.
  destruct (granted b now calls) as [[total b'] now'].
  destruct H as (H & (_ & [H0 _] & _) & _). destruct Hw as [_ Hcap].
  split; lra.
Qed.

Lemma no_over_issuance_witness :
  let '(total, _, now') :=
    granted (init 3 None 0) 0
      [(0%Q, 1); (0%Q, 1); (0%Q, 1); (0%Q, 1); (1 # 2, 1)] in
  (inject_Z total <= 3 + (now' - 0) * 3)%Q ∧
  (inject_Z total <= 3 + (now' - 0) * 3)%Q.
Proof.
  apply (no_over_issuance (init 3 None 0) 0
           [(0%Q, 1); (0%Q, 1); (0%Q, 1); (0%Q, 1); (1 # 2, 1)]).
  - simpl. lra.
  - split; simpl; lra.
  - simpl. lra.
  - repeat constructor; simpl; lra || lia.
Defined.




(** X3.  A request for more than the capacity is never granted: however
    long [wait_for_token] polls, it does not come back with the tokens. *)
Theorem request_above_capacity_never_granted (b : TokenBucket) (n : Z)
    (now : Q) (fuel : nat) :
  (capacity b < inject_Z n)%Q →
  (wait_for_token fuel b n now).1.1 = false.
Proof.
  revert b now. induction fuel as [|fuel IH]; intros b now Hcap; [done|].
  cbn [wait_for_token].
  pose proof (refill_tokens_le_capacity b now) as Hle.
  destruct (consume_rate b n now) as [_ Hc].
  unfold consume in *. destruct (Qle_bool _ _) eqn:E.
  - apply Qle_bool_iff in E. lra.
  - cbn [snd] in Hc. apply IH. by rewrite Hc.
Qed.

Lemma request_above_capacity_never_granted_witness :
  (wait_for_token 1000 (init 3 None 0) 4 0).1.1 = false.
Proof.
  apply (request_above_capacity_never_granted (init 3 None 0) 4 0 1000).
  reflexivity.
Defined.

Lemma wait_for_token_rate fuel : ∀ b n now,
  rate (wait_for_token fuel b n now).1.2 = rate b ∧
  capacity (wait_for_token fuel b n now).1.2 = capacity b.
Proof.
  induction fuel as [|fuel IH]; intros b n now; [done|].
  cbn [wait_for_token].
  destruct (consume_rate b n now) as [Hr Hc].
  destruct (consume b n now) as [[] b1]; cbn [fst snd] in *; [done|].
  destruct (IH b1 n (now + poll_interval)%Q) as [-> ->]. done.
Qed.

(** X4.  Keys are independent: waiting on one key leaves the bucket of
    every other key as it was. *)
Theorem wait_leaves_other_keys (fuel : nat) (buckets : registry)
    (key other : string) (rate : Q) (n : Z) (now : Q) :
  key ≠ other →
  (wait fuel buckets key rate n now).1.2 !! other = buckets !! other.
Proof.
  intros Hne. unfold wait, get_bucket.
  destruct (buckets !! key) as [b|] eqn:E; cbn [fst snd].
  - destruct (consume b n now) as [[] b1].
    + cbn. by rewrite lookup_insert_ne.
    + destruct (wait_for_token fuel b1 n now) as [[ok b2] now2]. cbn.
      by rewrite lookup_insert_ne.
  - destruct (consume (init rate None now) n now) as [[] b1].
    + cbn. by rewrite !lookup_insert_ne.
    + destruct (wait_for_token fuel b1 n now) as [[ok b2] now2]. cbn.
      by rewrite !lookup_insert_ne.
Qed.

Lemma wait_leaves_other_keys_witness :
  (wait 10 {[ "chembl" := init 10 None 0 ]} "pubmed" 3 1 0).1.2 !! "chembl"
  = Some (init 10 None 0).
Proof.
  rewrite (wait_leaves_other_keys 10 {[ "chembl" := init 10 None 0 ]}
             "pubmed" "chembl" 3 1 0).
  - reflexivity.
  - discriminate.
Defined.

(** X5.  The rate of a key is fixed at its first use: once a bucket
    exists for the key, [wait] keeps its rate and capacity and ignores the
    rate it is called with. *)
Theorem wait_keeps_first_rate (fuel : nat) (buckets : registry)
    (key : string) (rate' : Q) (n : Z) (now : Q) (b : TokenBucket) :
  buckets !! key = Some b →
  ∃ b', (wait fuel buckets key rate' n now).1.2 !! key = Some b' ∧
        rate b' = rate b ∧ capacity b' = capacity b.
Proof.
  intros Hb. unfold wait, get_bucket. rewrite Hb.
  destruct (consume_rate b n now) as [Hr Hc].
  destruct (consume b n now) as [[] b1]; cbn [fst snd] in *.
  - exists b1. by rewrite lookup_insert_eq.
  - destruct (wait_for_token_rate fuel b1 n now) as [Hr' Hc'].
    destruct (wait_for_token fuel b1 n now) as [[ok b2] now2].
    cbn [fst snd] in *. exists b2. rewrite lookup_insert_eq.
    by rewrite Hr', Hc', Hr, Hc.
Qed.

Lemma wait_keeps_first_rate_witness :
  ∃ b', (wait 10 {[ "pubmed" := init 3 None 0 ]} "pubmed" 100 1 0).1.2
          !! "pubmed" = Some b' ∧
        rate b' = rate (init 3 None 0) ∧
        capacity b' = capacity (init 3 None 0).
Proof.
  apply (wait_keeps_first_rate 10 {[ "pubmed" := init 3 None 0 ]}
           "pubmed" 100 1 0 (init 3 None 0)).
  reflexivity.
Defined.

(** A fresh bucket of rate 3 grants three requests at once, refuses the
    fourth, and grants one more half a second later. *)
Example burst_then_refusal :
  (granted (init 3 None 0) 0
     [(0%Q, 1); (0%Q, 1); (0%Q, 1); (0%Q, 1); (1 # 2, 1)]).1.1 = 4.
Proof. reflexivity. Qed.

End RateLimiterRuns.

(** * Further properties of the retry decorator *)

Section RetryRecovery.
Import RetryHandler Scripts.
Context {R A : Type}.
Variable cfg : Settings.t.
Variables max_retries backoff_base : Z.

(** The backoff sleep between two attempts changes the clock and the
    record of sleeps, and nothing else. *)
Lemma backoff_sleep_frame attempt (w : World R) :
  0 <= ideal_backoff cfg attempt (Some backoff_base) None →
  (0 <= rng w (draws w))%Q →
  ∃ d w2,
    (backoff ← calculate_backoff cfg attempt (Some backoff_base) None true;
     time_sleep backoff) w = (Return (), w2) ∧
    (d == inject_Z (ideal_backoff cfg attempt (Some backoff_base) None)
          * jitter_factor (rng w (draws w)))%Q ∧
    sleeps w2 = d :: sleeps w ∧ calls w2 = calls w ∧ rng w2 = rng w ∧
    draws w2 = S (draws w) ∧ cache w2 = cache w ∧
    remote (env w2) = remote (env w) ∧ limiter (env w2) = limiter (env w).
Proof.
  intros Hi Hr. unfold calculate_backoff, random_random, time_sleep.
  unfold mbind, M_bind, mret, M_ret.
  cbn [draws rng env now sleeps calls].
  match goal with |- context [Qle_bool 0 ?b] =>
    assert (Qle_bool 0 b = true) as ->
  end.
  { apply Qle_bool_iff. unfold jitter_factor.
    rewrite Zle_Qle in Hi. change (inject_Z 0) with 0%Q in Hi. nra. }
  eexists _, _. split; [reflexivity|]. cbn. repeat split; reflexivity.
Qed.

End RetryRecovery.

Section ScriptedRetry.
Import RetryHandler Scripts.
Context {A : Type}.
Variable cfg : Settings.t.
Variables max_retries backoff_base : Z.
Variable fallback : result A.

Hypothesis base_nonneg :
  0 <= Py.or_int (Some backoff_base) (Settings.RETRY_BACKOFF_BASE cfg).
Hypothesis cap_nonneg : 0 <= Settings.RETRY_BACKOFF_MAX cfg.

Lemma recover_loop errs : ∀ (j m : nat) last
    (w : World (list (result A))) v rest,
  Forall (λ e, is_retryable_error e = true) errs →
  remote (env w) = (Raise <$> errs) ++ Return v :: rest →
  (length errs < m)%nat →
  Z.of_nat (j + length errs) <= max_retries →
  (∀ i, 0 <= rng w i)%Q →
  ∃ w',
    retry_loop cfg max_retries backoff_base default_retryable_exceptions
      (scripted fallback) ((λ i : nat, Z.of_nat i) <$> seq j m) last w
    = (Return v, w') ∧
    calls w' = (calls w + S (length errs))%nat ∧
    length (sleeps w') = (length (sleeps w) + length errs)%nat ∧
    remote (env w') = rest.
Proof.
  induction errs as [|e errs IH]; intros j m last w v rest He Hrem Hm Hj Hrng;
    (destruct m as [|m]; [simpl in Hm; lia|]);
    change (seq j (S m)) with (j :: seq (S j) m); rewrite fmap_cons.
  - cbn [retry_loop]. unfold invoke, scripted. rewrite Hrem. cbn.
    eexists. split; [reflexivity|]. cbn. repeat split; lia.
  - apply Forall_cons in He as [He Herrs].
    set (w1 := {| env := {| now := now (env w); limiter := limiter (env w);
                            remote := (Raise <$> errs) ++ Return v :: rest |};
                  cache := cache w; log := log w; rng := rng w;
                  draws := draws w; calls := S (calls w);
                  sleeps := sleeps w |}).
    assert (invoke (scripted fallback) w = (Raise e, w1)) as Hi.
    { unfold invoke, scripted. by rewrite Hrem. }
    rewrite (retry_loop_retry cfg (scripted fallback) max_retries backoff_base
               _ _ _ _ _ _ _ Hi (retryable_is_caught _ He) He).
    simpl in Hj, Hm.
    replace (Z.of_nat j <? max_retries) with true
      by (symmetry; apply Z.ltb_lt; lia).
    destruct (backoff_sleep_frame cfg backoff_base (Z.of_nat j) w1)
      as (d & w2 & Hb & _ & Hs2 & Hc2 & Hg2 & _ & _ & Hrem2 & _).
    { apply ideal_backoff_nonneg; [done | done | lia]. }
    { apply Hrng. }
    unfold mbind at 1, M_bind at 1. rewrite Hb.
    destruct (IH (S j) m (Some e) w2 v rest) as (w' & Heq & Hc & Hs & Hr);
      try done; try lia.
    { rewrite Hg2. apply Hrng. }
    exists w'. split; [exact Heq|]. rewrite Hc, Hs, Hc2, Hs2. cbn.
    repeat split; [lia | lia | done].
Qed.

End ScriptedRetry.

(** X6.  Recovery: when the operation raises retryable errors on its
    first [k] invocations, with [k] no more than the retry count, and then
    returns, the decorated call returns that result after [k + 1]
    invocations and [k] backoff sleeps, and raises nothing. *)
Theorem retry_recovers_from_transient_failures {A} (cfg : Settings.t)
    (max_retries backoff_base : option Z) (fallback : result A)
    (errs : list exn) (v : A) (rest : list (result A))
    (w : World (list (result A))) :
  Forall (λ e, RetryHandler.is_retryable_error e = true) errs →
  Z.of_nat (length errs) <= Py.or_int max_retries (Settings.MAX_RETRIES cfg) →
  remote (env w) = (Raise <$> errs) ++ Return v :: rest →
  0 <= Py.or_int backoff_base (Settings.RETRY_BACKOFF_BASE cfg) →
  0 <= Settings.RETRY_BACKOFF_BASE cfg →
  0 <= Settings.RETRY_BACKOFF_MAX cfg →
  (∀ i, 0 <= rng w i)%Q →
  ∃ w',
    RetryHandler.retry_on_failure cfg max_retries backoff_base
      RetryHandler.default_retryable_exceptions (Scripts.scripted fallback) w
    = (Return v, w') ∧
    calls w' = (calls w + length errs + 1)%nat ∧
    length (sleeps w') = (length (sleeps w) + length errs)%nat ∧
    remote (env w') = rest.
Proof.
  intros He Hk Hrem Hb Hb' Hm Hrng. unfold RetryHandler.retry_on_failure.
  set (n := Py.or_int max_retries (Settings.MAX_RETRIES cfg)) in *.
  assert (0 <= n) by lia.
  rewrite range_succ by done.
  destruct (recover_loop cfg n
              (Py.or_int backoff_base (Settings.RETRY_BACKOFF_BASE cfg))
              fallback) with (errs := errs) (j := 0%nat)
              (m := S (Z.to_nat n)) (last := @None exn) (w := w) (v := v)
              (rest := rest) as (w' & Heq & Hc & Hs & Hr); try done; try lia.
  { unfold Py.or_int at 1.
    destruct (Z.eqb_spec (Py.or_int backoff_base
                            (Settings.RETRY_BACKOFF_BASE cfg)) 0); done. }
  exists w'. split; [exact Heq|]. repeat split; [lia | done | done].
Qed.

Lemma retry_recovers_from_transient_failures_witness :
  ∃ w',
    RetryHandler.retry_on_failure Settings.default None None
      RetryHandler.default_retryable_exceptions
      (Scripts.scripted (Raise Samples.timeout_error))
      (Samples.world
         [Raise Samples.connection_error; Raise (Samples.http_error 503);
          Return Samples.papers])
    = (Return Samples.papers, w') ∧
    calls w' = 3%nat ∧ length (sleeps w') = 2%nat ∧ remote (env w') = [].
Proof.
  apply (retry_recovers_from_transient_failures Settings.default None None
           (Raise Samples.timeout_error)
           [Samples.connection_error; Samples.http_error 503]
           Samples.papers []
           (Samples.world
              [Raise Samples.connection_error;
               Raise (Samples.http_error 503); Return Samples.papers])).
  - repeat constructor.
  - vm_compute. discriminate.
  - reflexivity.
  - vm_compute. discriminate.
  - vm_compute. discriminate.
  - vm_compute. discriminate.
  - intros i. vm_compute. discriminate.
Defined.

(** X7.  Only the listed classes are handled: an exception that is not an
    instance of [retryable_exceptions] leaves the decorated call at the
    first invocation, without a sleep, even when [is_retryable_error] would
    call it retryable. *)
Theorem unlisted_exception_propagates {R A} (cfg : Settings.t)
    (max_retries backoff_base : option Z) (classes : list exc_class)
    (func : operation R A) (w : World R) (e : exn) :
  0 <= Py.or_int max_retries (Settings.MAX_RETRIES cfg) →
  fst (func (env w)) = Raise e →
  Py.isinstance e classes = false →
  ∃ w', RetryHandler.retry_on_failure cfg max_retries backoff_base classes
          func w = (Raise e, w') ∧
        calls w' = S (calls w) ∧ sleeps w' = sleeps w ∧
        draws w' = draws w.
Proof.
  intros Hn He Hc. unfold RetryHandler.retry_on_failure.
  rewrite range_succ by done.
  cbn [seq fmap list_fmap RetryHandler.retry_loop]. unfold invoke.
  destruct (func (env w)) as [r e'] eqn:E. simpl in He. subst r.
  rewrite Hc. eauto.
Qed.

Lemma unlisted_exception_propagates_witness :
  ∃ w', RetryHandler.retry_on_failure Settings.default None None [Timeout]
          (Samples.always_raise (A:=value) Samples.connection_error)
          (Samples.world ())
        = (Raise Samples.connection_error, w') ∧
        calls w' = 1%nat ∧ sleeps w' = [] ∧ draws w' = 0%nat.
Proof.
  apply (unlisted_exception_propagates Settings.default None None [Timeout]
           (Samples.always_raise Samples.connection_error)
           (Samples.world ()) Samples.connection_error).
  - vm_compute. discriminate.
  - reflexivity.
  - reflexivity.
Defined.

Section BackoffBudget.
Import RetryHandler Scripts.
Context {R A : Type}.
Variable cfg : Settings.t.
Variables max_retries backoff_base : Z.
Variable classes : list exc_class.
Variable func : operation R A.




End BackoffBudget.




(** * Properties of [RetrySession.request] *)

Section SessionProperties.
Import RetryHandler RetrySession.
Context {R : Type}.
Variable cfg : Settings.t.
Variable self : RetrySession.t.

Lemma retryable_in_error_range s :
  s ∈ RETRYABLE_STATUS_CODES →
  raise_for_status {| status_code := s; body := VNone |}
  = Raise (Samples.http_error s).
Proof.
  unfold RETRYABLE_STATUS_CODES. intros H.
  rewrite !elem_of_union, !elem_of_singleton in H.
  unfold raise_for_status. cbn [status_code].
  assert (400 <= s < 600) as [H1 H2] by lia.
  apply Z.leb_le in H1. apply Z.ltb_lt in H2. by rewrite H1, H2.
Qed.

Lemma raise_for_status_status r :
  raise_for_status r
  = raise_for_status {| status_code := status_code r; body := VNone |}.
Proof. done. Qed.

Lemma non_retryable_in_error_range s :
  s ∈ NON_RETRYABLE_STATUS_CODES →
  raise_for_status {| status_code := s; body := VNone |}
  = Raise (Samples.http_error s).
Proof.
  unfold NON_RETRYABLE_STATUS_CODES. intros H.
  rewrite !elem_of_union, !elem_of_singleton in H.
  unfold raise_for_status. cbn [status_code].
  assert (400 <= s < 600) as [H1 H2] by lia.
  apply Z.leb_le in H1. apply Z.ltb_lt in H2. by rewrite H1, H2.
Qed.

Lemma http_error_is_caught s :
  Py.isinstance (Samples.http_error s)
    [ConnectionError; Timeout; RequestException] = true.
Proof. done. Qed.

Lemma http_error_retryable s :
  is_retryable_error (Samples.http_error s)
  = bool_decide (s ∈ RETRYABLE_STATUS_CODES).
Proof. done. Qed.

(** X9.  A status in neither set is handed back: the session returns the
    response after one request, without a sleep, and raises nothing, also
    when the status is an error status such as 418 or 501. *)
Theorem session_returns_unlisted_status
    (send : option Z → operation R Response)
    (timeout_kwarg : option (option Z)) (w : World R) (r : Response) :
  0 <= max_retries self →
  fst (send (effective_timeout self timeout_kwarg) (env w)) = Return r →
  status_code r ∉ RETRYABLE_STATUS_CODES →
  status_code r ∉ NON_RETRYABLE_STATUS_CODES →
  ∃ w', request cfg self send timeout_kwarg w = (Return r, w') ∧
        calls w' = S (calls w) ∧ sleeps w' = sleeps w.
Proof.
  intros Hn Hs Hr Hnr. unfold request. rewrite range_succ by done.
  cbn [seq fmap list_fmap request_loop]. unfold attempt_body, invoke.
  unfold mbind, M_bind, mret, M_ret.
  destruct (send _ (env w)) as [o e']. cbn [fst] in Hs. subst o.
  rewrite (bool_decide_eq_false_2 _ Hr), (bool_decide_eq_false_2 _ Hnr).
  eauto.
Qed.

(** X10.  A status in the non-retryable set is raised at once: the
    session raises the [HTTPError] of that status after one request,
    without a sleep. *)
Theorem session_raises_non_retryable_status
    (send : option Z → operation R Response)
    (timeout_kwarg : option (option Z)) (w : World R) (r : Response) :
  0 <= max_retries self →
  fst (send (effective_timeout self timeout_kwarg) (env w)) = Return r →
  status_code r ∈ NON_RETRYABLE_STATUS_CODES →
  ∃ w', request cfg self send timeout_kwarg w
          = (Raise (Samples.http_error (status_code r)), w') ∧
        calls w' = S (calls w) ∧ sleeps w' = sleeps w.
Proof.
  intros Hn Hs Hnr. unfold request. rewrite range_succ by done.
  cbn [seq fmap list_fmap request_loop]. unfold attempt_body, invoke.
  unfold mbind, M_bind, mret, M_ret, pure_call.
  destruct (send _ (env w)) as [o e']. cbn [fst] in Hs. subst o.
  pose proof (non_retryable_disjoint _ Hnr) as Hr.
  rewrite (bool_decide_eq_false_2 _ Hr), (bool_decide_eq_true_2 _ Hnr).
  rewrite raise_for_status_status, (non_retryable_in_error_range _ Hnr).
  rewrite http_error_is_caught, http_error_retryable.
  rewrite (bool_decide_eq_false_2 _ Hr). cbn [negb]. eauto.
Qed.

End SessionProperties.

Section SessionExhaustion.
Import RetryHandler RetrySession.
Context {R : Type}.
Variable cfg : Settings.t.
Variable self : RetrySession.t.
Variable send : operation R Response.

Hypothesis always_retryable :
  ∀ e : Env R, ∃ r e',
    send e = (Return r, e') ∧ status_code r ∈ RETRYABLE_STATUS_CODES.
Hypothesis base_nonneg :
  0 <= Py.or_int (Some (backoff_base self)) (Settings.RETRY_BACKOFF_BASE cfg).
Hypothesis cap_nonneg : 0 <= Settings.RETRY_BACKOFF_MAX cfg.

Lemma session_exhaust_loop m : ∀ (j : nat) last (w : World R),
  Z.of_nat (j + m) = max_retries self →
  (∀ i, 0 <= rng w i)%Q →
  ∃ w_last r e' w',
    send (env w_last) = (Return r, e') ∧
    request_loop cfg self send ((λ i : nat, Z.of_nat i) <$> seq j (S m))
      last w = (Raise (Samples.http_error (status_code r)), w') ∧
    calls w_last = (calls w + m)%nat ∧
    calls w' = S (calls w_last) ∧
    length (sleeps w') = (length (sleeps w) + m)%nat.
Proof.
  induction m as [|m IH]; intros j last w Hj Hrng;
    change (seq j (S ?n)) with (j :: seq (S j) n); rewrite fmap_cons;
    cbn [request_loop]; unfold attempt_body, invoke;
    unfold mbind at 1 2, M_bind at 1 2;
    destruct (always_retryable (env w)) as (r & e' & Hs & Hr).
  - exists w, r, e'. rewrite Hs, (bool_decide_eq_true_2 _ Hr).
    replace (Z.of_nat j <? max_retries self) with false
      by (symmetry; apply Z.ltb_ge; lia).
    unfold mbind, M_bind, mret, M_ret, pure_call.
    rewrite raise_for_status_status, (retryable_in_error_range _ Hr).
    rewrite http_error_is_caught, http_error_retryable.
    rewrite (bool_decide_eq_true_2 _ Hr). cbn [negb request_loop raise].
    eexists. split; [done|]. split; [reflexivity|]. cbn.
    repeat split; lia.
  - rewrite Hs, (bool_decide_eq_true_2 _ Hr).
    replace (Z.of_nat j <? max_retries self) with true
      by (symmetry; apply Z.ltb_lt; lia).
    set (w1 := {| env := e'; cache := cache w; log := log w; rng := rng w;
                  draws := draws w; calls := S (calls w);
                  sleeps := sleeps w |}).
    destruct (backoff_sleep_frame cfg (backoff_base self) (Z.of_nat j) w1)
      as (d & w2 & Hb & _ & Hs2 & Hc2 & Hg2 & _).
    { apply ideal_backoff_nonneg; [done | done | lia]. }
    { apply Hrng. }
    revert Hb. unfold calculate_backoff.
    unfold mbind, M_bind, mret, M_ret. intros Hb.
    destruct (random_random w1) as [[q|?] w1'] eqn:Hq; [|done].
    destruct (time_sleep _ w1') as [[[]|?] w2'] eqn:Ht; [|done].
    injection Hb as ->.
    destruct (IH (S j) last w2) as (w_last & r' & e'' & w' & H1 & H2 & H3 & H4 & H5);
      [lia | rewrite Hg2; apply Hrng |].
    exists w_last, r', e'', w'. split; [done|]. split; [exact H2|].
    rewrite H4, H3, H5, Hc2, Hs2. cbn. repeat split; lia.
Qed.

End SessionExhaustion.

(** X11.  A retryable status on every response uses up the retries: the
    session sends [max_retries + 1] requests with [max_retries] sleeps in
    between, and then raises the [HTTPError] of the last response instead
    of returning it. *)
Theorem session_exhausts_on_retryable_status {R} (cfg : Settings.t)
    (self : RetrySession.t)
    (send : option Z → operation R RetrySession.Response)
    (timeout_kwarg : option (option Z)) (w : World R) :
  0 <= RetrySession.max_retries self →
  (∀ e : Env R, ∃ r e',
     send (RetrySession.effective_timeout self timeout_kwarg) e
       = (Return r, e') ∧
     RetrySession.status_code r ∈ RetryHandler.RETRYABLE_STATUS_CODES) →
  0 <= Py.or_int (Some (RetrySession.backoff_base self))
         (Settings.RETRY_BACKOFF_BASE cfg) →
  0 <= Settings.RETRY_BACKOFF_MAX cfg →
  (∀ i, 0 <= rng w i)%Q →
  ∃ r w',
    RetrySession.request cfg self send timeout_kwarg w
      = (Raise (Samples.http_error (RetrySession.status_code r)), w') ∧
    RetrySession.status_code r ∈ RetryHandler.RETRYABLE_STATUS_CODES ∧
    calls w' = (calls w + Z.to_nat (RetrySession.max_retries self) + 1)%nat ∧
    length (sleeps w')
      = (length (sleeps w) + Z.to_nat (RetrySession.max_retries self))%nat.
Proof.
  intros Hn Hall Hb Hc Hrng. unfold RetrySession.request.
  rewrite range_succ by done.
  destruct (session_exhaust_loop cfg self _ Hall Hb Hc
              (Z.to_nat (RetrySession.max_retries self)) 0 None w)
    as (w_last & r & e' & w' & H1 & H2 & H3 & H4 & H5); [lia | done |].
  exists r, w'. split; [exact H2|].
  destruct (Hall (env w_last)) as (r' & e'' & Hs & Hr).
  rewrite H1 in Hs. injection Hs as <- _.
  repeat split; [done | lia | done].
Qed.

Lemma session_exhausts_on_retryable_status_witness :
  ∃ r w',
    RetrySession.request Settings.default
      (RetrySession.init Settings.default None None None)
      (λ _, Samples.always_return
              {| RetrySession.status_code := 503;
                 RetrySession.body := VNone |})
      None (Samples.world ())
    = (Raise (Samples.http_error (RetrySession.status_code r)), w') ∧
    RetrySession.status_code r ∈ RetryHandler.RETRYABLE_STATUS_CODES ∧
    calls w' = 4%nat ∧ length (sleeps w') = 3%nat.
Proof.
  apply (session_exhausts_on_retryable_status Settings.default
           (RetrySession.init Settings.default None None None)
           (λ _, Samples.always_return
                   {| RetrySession.status_code := 503;
                      RetrySession.body := VNone |})
           None (Samples.world ())).
  - vm_compute. discriminate.
  - intros e. eexists _, _. split; [reflexivity|]. vm_compute. reflexivity.
  - vm_compute. discriminate.
  - vm_compute. discriminate.
  - intros i. vm_compute. discriminate.
Defined.

Lemma session_returns_unlisted_status_witness :
  ∃ w',
    RetrySession.request Settings.default
      (RetrySession.init Settings.default None None None)
      (λ _, Samples.always_return
              {| RetrySession.status_code := 418;
                 RetrySession.body := VNone |})
      None (Samples.world ())
    = (Return {| RetrySession.status_code := 418;
                 RetrySession.body := VNone |}, w') ∧
    calls w' = 1%nat ∧ sleeps w' = [].
Proof.
  apply (session_returns_unlisted_status Settings.default
           (RetrySession.init Settings.default None None None)
           (λ _, Samples.always_return
                   {| RetrySession.status_code := 418;
                      RetrySession.body := VNone |})
           None (Samples.world ())).
  - vm_compute. discriminate.
  - reflexivity.
  - compute_done.
  - compute_done.
Defined.

Lemma session_raises_non_retryable_status_witness :
  ∃ w',
    RetrySession.request Settings.default
      (RetrySession.init Settings.default None None None)
      (λ _, Samples.always_return
              {| RetrySession.status_code := 404;
                 RetrySession.body := VNone |})
      None (Samples.world ())
    = (Raise (Samples.http_error 404), w') ∧
    calls w' = 1%nat ∧ sleeps w' = [].
Proof.
  apply (session_raises_non_retryable_status Settings.default
           (RetrySession.init Settings.default None None None)
           (λ _, Samples.always_return
                   {| RetrySession.status_code := 404;
                      RetrySession.body := VNone |})
           None (Samples.world ())
           {| RetrySession.status_code := 404; RetrySession.body := VNone |}).
  - vm_compute. discriminate.
  - reflexivity.
  - vm_compute. reflexivity.
Defined.

(** * Further properties of the envelope *)

Section EnvelopeEffects.
Import BaseTool.
Context {R : Type}.
Variable cfg : Settings.t.
Variable self : BaseTool.t.
Variables method_name query : string.
Variable func : list (string * scalar) → operation R value.
Variable kwargs : list (string * scalar).

Let key := _get_cache_key method_name (("query", SStr query) :: kwargs).
Let call :=
  _execute_with_monitoring (R:=R) cfg self method_name query func kwargs.

Ltac run_call :=
  unfold call, _execute_with_monitoring, try_except, monitored_body,
    monitored_handler, latency_since, log_tool_call, emit, time_time,
    invoke, mbind, M_bind, mret, M_ret; fold key.

(** Everything one call does to the log and to the cache. *)
Lemma envelope_effects (w : World R) :
  ∃ r w' rec c',
    call w = (Return r, w') ∧
    log w' = rec :: log w ∧
    log_tool_name rec = name self ∧ log_query rec = query ∧
    log_status rec = (if success r then "success" else "error") ∧
    log_error rec = (if success r then None else error r) ∧
    (c' = cache w ∨ c' = delete key (cache w)) ∧
    (cache w' = c' ∨
     (success r = true ∧ Settings.ENABLE_CACHE cfg = true ∧
      cache w' = <[key := (now (env w'), data r)]> c')).
Proof.
  destruct (get_from_cache_cases cfg key w) as
    [(t & v & He & Hl & Hq & Hv & Hg) | (c' & Hg & Hc')]; run_call;
    rewrite Hg.
  - assert (is_not_None v = true) as -> by by destruct v.
    eexists _, _, _, (cache w). split; [reflexivity|]. cbn.
    repeat split; eauto.
  - cbn [is_not_None set_cache env calls].
    destruct (func kwargs (env w)) as [[raw|e] e'] eqn:Hf.
    + destruct (parse_results self raw) as [v|e] eqn:Hp.
      * unfold _save_to_cache. destruct (Settings.ENABLE_CACHE cfg).
        -- eexists _, _, _, c'. split; [reflexivity|]. cbn.
           repeat split; eauto.
        -- eexists _, _, _, c'. split; [reflexivity|]. cbn.
           repeat split; eauto.
      * pose proof (handle_errors_nonempty e) as Hne.
        destruct (handle_errors e) eqn:Hh; [done|].
        eexists _, _, _, c'. split; [reflexivity|]. cbn.
        repeat split; eauto.
    + pose proof (handle_errors_nonempty e) as Hne.
      destruct (handle_errors e) eqn:Hh; [done|].
      eexists _, _, _, c'. split; [reflexivity|]. cbn.
      repeat split; eauto.
Qed.


(** X13.  A failure stores nothing: after a call that fails, the cache is
    what it was, except that an expired entry of the call's own key may be
    gone. *)
Theorem failure_is_not_cached (w : World R) (r : ToolResult)
    (w' : World R) :
  call w = (Return r, w') →
  success r = false →
  cache w' = cache w ∨ cache w' = delete key (cache w).
Proof.
  intros Hc Hs.
  destruct (envelope_effects w) as (r0 & w0 & rec & c' & Hc0 & _ & _ & _ & _
                                    & _ & Hc' & Hcache).
  rewrite Hc in Hc0. injection Hc0 as <- <-.
  destruct Hcache as [-> | (Hs' & _)]; [done|]. by rewrite Hs in Hs'.
Qed.

(** X14.  A call touches only its own key: the entry of every other key
    is afterwards what it was before. *)
Theorem call_leaves_other_entries (w : World R) (other : string) :
  other ≠ key →
  cache (call w).2 !! other = cache w !! other.
Proof.
  intros Hne.
  destruct (envelope_effects w) as (r & w' & rec & c' & Hc & _ & _ & _ & _
                                    & _ & Hc' & Hcache).
  rewrite Hc. cbn [snd].
  assert (c' !! other = cache w !! other) as Hother.
  { destruct Hc' as [-> | ->]; [done|]. by rewrite lookup_delete_ne. }
  destruct Hcache as [-> | (_ & _ & ->)]; [done|].
  by rewrite lookup_insert_ne.
Qed.

(** X15.  Clearing the cache forces the next call to the service: after
    [clear_cache], a call invokes its operation whatever the cache held,
    its result is not marked as cached, and no entry but the call's own
    can be in the cache afterwards. *)
Theorem clear_cache_forces_call (w : World R) :
  ∃ r w',
    (CacheMaintenance.clear_cache ≫= λ _, call) w = (Return r, w') ∧
    calls w' = S (calls w) ∧
    env w' = (func kwargs (env w)).2 ∧
    (∀ m, metadata r = Some m → m !! "cached" ≠ Some (VBool true)) ∧
    (∀ other, other ≠ key → cache w' !! other = None).
Proof.
  unfold CacheMaintenance.clear_cache, mbind, M_bind.
  remember (set_cache ∅ w) as w1 eqn:Hw1.
  destruct (get_from_cache_cases cfg key w1) as
    [(t & v & _ & Hl & _) | (c' & Hg & Hc')].
  { rewrite Hw1 in Hl. cbn in Hl. by rewrite lookup_empty in Hl. }
  assert (c' = ∅) as ->.
  { rewrite Hw1 in Hc'. cbn in Hc'. destruct Hc' as [-> | ->]; [done|].
    apply delete_empty. }
  destruct (envelope_miss cfg self method_name query func kwargs w1 ∅ Hg)
    as (r & w' & Hc & He & Hn & _ & _ & Hout).
  exists r, w'. fold call key in Hc, Hout.
  rewrite Hw1 in He, Hn, Hout. cbn [set_cache env calls] in He, Hn, Hout.
  split; [done|]. split; [done|]. split; [done|]. split.
  - intros m Hm Hcached. revert Hout.
    destruct (func kwargs (env w)).1 as [raw|e];
      [destruct (parse_results self raw) as [v|e]|];
      intros [(_ & _ & _ & m' & Hm' & Hflag & _) _];
      rewrite Hm in Hm'; injection Hm' as <-;
      by rewrite Hcached in Hflag.
  - intros other Hne. revert Hout.
    destruct (func kwargs (env w)).1 as [raw|e];
      [destruct (parse_results self raw) as [v|e]|]; intros [_ ->];
      [destruct (Settings.ENABLE_CACHE cfg)|..];
      by rewrite ?lookup_insert_ne, lookup_empty.
Qed.

(** X16.  A time to live of zero or less switches the cache off in effect:
    as long as no entry of the key is dated after the clock, every call
    invokes its operation. *)
Theorem nonpositive_ttl_never_hits (w : World R) :
  Settings.CACHE_TTL cfg ≤ 0 →
  (∀ t v, cache w !! key = Some (t, v) → (t <= now (env w))%Q) →
  calls (call w).2 = S (calls w).
Proof.
  intros Httl Hpast.
  destruct (get_from_cache_cases cfg key w) as
    [(t & v & _ & Hl & Hq & _) | (c' & Hg & _)].
  - apply fresh_lt in Hq. specialize (Hpast t v Hl).
    rewrite Zle_Qle in Httl. change (inject_Z 0) with 0%Q in Httl. lra.
  - destruct (envelope_miss cfg self method_name query func kwargs w c' Hg)
      as (r & w' & Hc & _ & Hn & _).
    fold call in Hc. by rewrite Hc.
Qed.

(** X17.  Stale data are never served: when the entry of the key has
    outlived the time to live, the call invokes its operation; if that
    succeeds the entry is replaced by the new value, dated by the clock
    after the call, and if it fails the result is a failure and the old
    entry is gone. *)
Theorem expired_entry_is_replaced_or_dropped (w : World R) (t : Q)
    (v : value) :
  Settings.ENABLE_CACHE cfg = true →
  cache w !! key = Some (t, v) →
  (inject_Z (Settings.CACHE_TTL cfg) <= now (env w) - t)%Q →
  ∃ r w',
    call w = (Return r, w') ∧
    calls w' = S (calls w) ∧
    match (func kwargs (env w)).1 with
    | Return raw =>
        match parse_results self raw with
        | Return v' =>
            success r = true ∧ data r = v' ∧
            cache w' !! key = Some (now (env w'), v')
        | Raise _ =>
            success r = false ∧ data r = VNone ∧ cache w' !! key = None
        end
    | Raise _ =>
        success r = false ∧ data r = VNone ∧ cache w' !! key = None
    end.
Proof.
  intros He Hl Hexp. apply fresh_ge in Hexp.
  assert (_get_from_cache cfg key w
          = (Return VNone, set_cache (delete key (cache w)) w)) as Hg.
  { unfold _get_from_cache. rewrite He. cbn [negb]. by rewrite Hl, Hexp. }
  destruct (envelope_miss cfg self method_name query func kwargs w _ Hg)
    as (r & w' & Hc & Henv & Hn & _ & _ & Hout).
  exists r, w'. fold call key in Hc, Hout. repeat split; try done.
  revert Hout. rewrite He, Henv.
  destruct (func kwargs (env w)).1 as [raw|e];
    [destruct (parse_results self raw) as [v'|e]|].
  - intros [(Hs & Hd & _) ->]. split; [done|]. split; [done|].
    apply lookup_insert_eq.
  - intros [(Hs & Hd & _) ->]. split; [done|]. split; [done|].
    apply lookup_delete_eq.
  - intros [(Hs & Hd & _) ->]. split; [done|]. split; [done|].
    apply lookup_delete_eq.
Qed.

End EnvelopeEffects.

Lemma failure_is_not_cached_witness :
  ∃ r w',
    BaseTool._execute_with_monitoring Settings.default
      Samples.passthrough_tool "search_pubmed" "egfr"
      (λ _, Samples.always_raise Samples.connection_error) []
      (Samples.world ()) = (Return r, w') ∧
    BaseTool.success r = false ∧
    (cache w' = cache (Samples.world ()) ∨
     cache w' =
       delete (BaseTool._get_cache_key "search_pubmed"
                 [("query", SStr "egfr")])
         (cache (Samples.world ()))).
Proof.
  eexists _, _. split; [vm_compute; reflexivity|]. split; [reflexivity|].
  eapply (failure_is_not_cached Settings.default Samples.passthrough_tool
           "search_pubmed" "egfr"
           (λ _, Samples.always_raise Samples.connection_error) []
           (Samples.world ()) _ _); [vm_compute|]; reflexivity.
Defined.

Lemma call_leaves_other_entries_witness :
  let w := Samples.world_caching () "get_drug_info?query=CHEMBL941"
             Samples.papers in
  "get_drug_info?query=CHEMBL941"
    ≠ BaseTool._get_cache_key "search_pubmed" [("query", SStr "egfr")] ∧
  cache (BaseTool._execute_with_monitoring Settings.default
           Samples.passthrough_tool "search_pubmed" "egfr"
           (λ _, Samples.always_return (VInt 7)) [] w).2
    !! "get_drug_info?query=CHEMBL941"
  = Some (0%Q, Samples.papers).
Proof.
  intros w.
  assert ("get_drug_info?query=CHEMBL941"
          ≠ BaseTool._get_cache_key "search_pubmed"
              [("query", SStr "egfr")]) as Hne.
  { vm_compute. discriminate. }
  split; [exact Hne|].
  rewrite (call_leaves_other_entries Settings.default
             Samples.passthrough_tool "search_pubmed" "egfr"
             (λ _, Samples.always_return (VInt 7)) [] w _ Hne).
  subst w. unfold Samples.world_caching. cbn [cache set_cache].
  apply lookup_singleton_eq.
Defined.

Lemma nonpositive_ttl_never_hits_witness :
  let cfg := Configs.with_ttl 0 Settings.default in
  let w := Samples.world_caching ()
             (BaseTool._get_cache_key "search_pubmed"
                [("query", SStr "egfr")]) Samples.papers in
  Settings.CACHE_TTL cfg ≤ 0 ∧
  calls (BaseTool._execute_with_monitoring cfg Samples.passthrough_tool
           "search_pubmed" "egfr"
           (λ _, Samples.always_return (VInt 7)) [] w).2 = 1%nat.
Proof.
  intros cfg w. split; [done|].
  apply (nonpositive_ttl_never_hits cfg Samples.passthrough_tool
           "search_pubmed" "egfr"
           (λ _, Samples.always_return (VInt 7)) [] w); [done|].
  intros t v. subst w. unfold Samples.world_caching.
  cbn [cache set_cache env Samples.world now].
  intros [_ [= <- _]]%lookup_singleton_Some. done.
Defined.

Lemma expired_entry_is_replaced_or_dropped_witness :
  let key := BaseTool._get_cache_key "search_pubmed"
               [("query", SStr "egfr")] in
  let cfg := Configs.with_ttl 0 Settings.default in
  ∃ r w',
    BaseTool._execute_with_monitoring cfg Samples.passthrough_tool
      "search_pubmed" "egfr"
      (λ _, Samples.always_raise Samples.connection_error) []
      (Samples.world_caching () key Samples.papers) = (Return r, w') ∧
    BaseTool.success r = false ∧ cache w' !! key = None.
Proof.
  intros key cfg.
  destruct (expired_entry_is_replaced_or_dropped cfg
              Samples.passthrough_tool "search_pubmed" "egfr"
              (λ _, Samples.always_raise Samples.connection_error) []
              (Samples.world_caching () key Samples.papers)
              0%Q Samples.papers)
    as (r & w' & Hc & _ & Hs & _ & Hk).
  - reflexivity.
  - apply lookup_singleton_eq.
  - vm_compute. discriminate.
  - exists r, w'. done.
Defined.

(** * The pagination loop of [search_trials] *)

Section PaginationProperties.
Import ClinicalTrials.
Context {R : Type}.
Variable render : value → string.
Variable page : list (string * string) → value → operation R value.

(** With every page at least one study long, the loop ends within as many
    requests as studies are still missing. *)
Lemma pages_loop_ends (qp : list (string * string)) (limit : Z) :
  (∀ tok e resp e',
     page qp tok e = (Return resp, e') →
     ∀ studies items,
       Dyn.get resp "studies" (VList []) = Return studies →
       Dyn.iterate render studies = Return items → items ≠ []) →
  ∀ fuel all tok e,
    limit - Z.of_nat (length all) ≤ Z.of_nat fuel →
    is_Some (pages_loop render page fuel qp limit all tok e).
Proof.
  intros Hpage. induction fuel as [|fuel IH]; intros all tok e Hfuel.
  - cbn. destruct (Z.of_nat (length all) <? limit) eqn:Hlt; cbn; [|eauto].
    apply Z.ltb_lt in Hlt. lia.
  - cbn [pages_loop].
    destruct (Z.of_nat (length all) <? limit) eqn:Hlt; cbn [negb]; [|eauto].
    destruct (page qp tok e) as [[resp|x] e'] eqn:Hp; [|eauto].
    destruct (Dyn.get resp "studies" (VList [])) as [studies|x] eqn:Hs;
      cbn [mbind Dyn.result_bind]; [|eauto].
    destruct (Dyn.iterate render studies) as [items|x] eqn:Hi;
      cbn [mbind Dyn.result_bind]; [|eauto].
    destruct (Dyn.get resp "nextPageToken" VNone) as [tok'|x];
      cbn [mbind Dyn.result_bind]; [|eauto].
    destruct (_ || _); [eauto|].
    apply IH. rewrite length_app.
    pose proof (Hpage tok e resp e' Hp studies items Hs Hi) as Hne.
    destruct items; [done|]. cbn [length]. lia.
Qed.

(** A slice [l[:n]] with [n] not negative has at most [n] elements. *)
Lemma slice_to_length {A} (l : list A) (n : Z) :
  0 ≤ n → Z.of_nat (length (Dyn.slice_to l n)) ≤ n.
Proof.
  intros Hn. unfold Dyn.slice_to.
  destruct (0 <=? n) eqn:Hle; [|apply Z.leb_gt in Hle; lia].
  rewrite length_take. lia.
Qed.

(** A limit that is not positive ends the loop before its first
    request. *)
Lemma pages_loop_no_request (qp : list (string * string)) (limit : Z)
    (fuel : nat) (all : list value) (tok : value) (e : Env R) :
  limit ≤ Z.of_nat (length all) →
  pages_loop render page fuel qp limit all tok e = Some (Return all, e).
Proof.
  intros Hl. destruct fuel; cbn [pages_loop];
    (destruct (Z.of_nat (length all) <? limit) eqn:Hlt;
     [apply Z.ltb_lt in Hlt; lia | done]).
Qed.

(** X18.  The pagination loop of [search_trials] ends, and within
    [max_results or 100] requests, whenever every page the service answers
    has at least one study; a result it returns is a dictionary whose
    [studies] are at most that many. *)
Theorem pagination_ends_within_limit (qp : list (string * string))
    (max_results : option Z) (fuel : nat) (e : Env R) :
  (∀ tok e resp e',
     page qp tok e = (Return resp, e') →
     ∀ studies items,
       Dyn.get resp "studies" (VList []) = Return studies →
       Dyn.iterate render studies = Return items → items ≠ []) →
  (Z.to_nat (Py.or_int max_results 100) ≤ fuel)%nat →
  ∃ out,
    _execute render page fuel qp max_results e = Some out ∧
    ∀ v, out.1 = Return v →
      ∃ studies,
        v = VDict [("studies", VList studies)] ∧
        Z.of_nat (length studies) ≤ Z.max 0 (Py.or_int max_results 100).
Proof.
  intros Hpage Hfuel. unfold _execute.
  destruct (decide (Py.or_int max_results 100 ≤ 0)) as [Hneg|Hpos].
  - rewrite pages_loop_no_request by (cbn [length]; lia).
    cbn. eexists. split; [reflexivity|].
    cbn. intros v [= <-]. exists []. split; [|cbn [length]; lia].
    unfold Dyn.slice_to. rewrite !take_nil. by destruct (0 <=? _).
  - destruct (pages_loop_ends qp (Py.or_int max_results 100) Hpage fuel []
                VNone e) as [[o e'] Ho]; [cbn [length]; lia|].
    rewrite Ho. cbn. eexists. split; [reflexivity|].
    cbn. intros v Hv. destruct o as [all|x]; [|done].
    injection Hv as <-. eexists. split; [reflexivity|].
    etrans; [apply slice_to_length; lia|lia].
Qed.

(** A service that answers every request with a page of no studies and a
    next-page token keeps the loop going. *)
Lemma pages_loop_spins (qp : list (string * string)) (limit : Z) :
  0 < limit →
  (∀ tok e, ∃ resp e' studies tok',
     page qp tok e = (Return resp, e') ∧
     Dyn.get resp "studies" (VList []) = Return studies ∧
     Dyn.iterate render studies = Return [] ∧
     Dyn.get resp "nextPageToken" VNone = Return tok' ∧
     Dyn.truthy tok' = true) →
  ∀ fuel tok e, pages_loop render page fuel qp limit [] tok e = None.
Proof.
  intros Hlimit Hpage. induction fuel as [|fuel IH]; intros tok e.
  - cbn [pages_loop length]. change (Z.of_nat 0) with 0.
    destruct (0 <? limit) eqn:Hlt; [done|].
    apply Z.ltb_ge in Hlt. lia.
  - cbn [pages_loop length]. change (Z.of_nat 0) with 0.
    destruct (0 <? limit) eqn:Hlt; [|apply Z.ltb_ge in Hlt; lia].
    cbn [negb].
    destruct (Hpage tok e) as (resp & e' & studies & tok' & -> & -> & Hi
                               & -> & Ht).
    cbn [mbind Dyn.result_bind]. rewrite Hi. cbn [mbind Dyn.result_bind mret
      Dyn.result_ret app length]. rewrite Ht. cbn [negb orb].
    change (Z.of_nat 0) with 0.
    destruct (limit <=? 0) eqn:Hle; [apply Z.leb_le in Hle; lia|].
    apply IH.
Qed.

(** X19.  The pagination loop of [search_trials] has no bound of its own
    on the number of requests: against a service that answers every request
    with an empty page and a next-page token, it does not end, however many
    requests it is allowed, unless [max_results] is negative. *)
Theorem pagination_spins_on_empty_pages (qp : list (string * string))
    (max_results : option Z) (fuel : nat) (e : Env R) :
  (∀ n, max_results = Some n → 0 ≤ n) →
  (∀ tok e, ∃ resp e' studies tok',
     page qp tok e = (Return resp, e') ∧
     Dyn.get resp "studies" (VList []) = Return studies ∧
     Dyn.iterate render studies = Return [] ∧
     Dyn.get resp "nextPageToken" VNone = Return tok' ∧
     Dyn.truthy tok' = true) →
  _execute render page fuel qp max_results e = None.
Proof.
  intros Hmax Hpage. unfold _execute.
  rewrite pages_loop_spins; [done| |done].
  unfold Py.or_int. destruct max_results as [n|]; [|lia].
  specialize (Hmax n eq_refl). destruct (n =? 0) eqn:Hn; [lia|].
  apply Z.eqb_neq in Hn. lia.
Qed.

End PaginationProperties.

Section PagedService.
Import ClinicalTrials.
Variable render : value → string.
Variable fallback : result value.

Lemma pages_loop_collects (qp : list (string * string)) (limit : Z)
    (last : list value) (tok : value) (rest : list (result value)) :
  ∀ (pre : list (list value * value)) (all : list value) (fuel : nat)
    (tok0 : value) (e : Env (list (result value))),
    Forall (λ p, Dyn.truthy p.2 = true) pre →
    Z.of_nat (length (all ++ concat pre.*1)) < limit →
    (Dyn.truthy tok = false
     ∨ limit ≤ Z.of_nat (length (all ++ concat pre.*1 ++ last))) →
    remote e = Pages.script pre ++ Return (Pages.response (last, tok)) :: rest →
    (length pre < fuel)%nat →
    pages_loop render (Pages.serve fallback) fuel qp limit all tok0 e
    = Some (Return (all ++ concat pre.*1 ++ last),
            {| now := now e; limiter := limiter e; remote := rest |}).
Proof.
  induction pre as [|p pre IH]; intros all fuel tok0 e Htok Hlt Hend Hr Hf.
  - destruct fuel as [|fuel]; [cbn in Hf; lia|].
    unfold Pages.script in Hr.
    cbn [concat fmap list_fmap app] in Hlt, Hend, Hr |- *.
    rewrite app_nil_r in Hlt.
    cbn [pages_loop]. apply Z.ltb_lt in Hlt as Hlt'. rewrite Hlt'.
    cbn [negb]. unfold Pages.serve, Scripts.scripted. rewrite Hr.
    change (Dyn.get (Pages.response (last, tok)) "studies" (VList []))
      with (Return (A:=value) (VList last)).
    change (Dyn.get (Pages.response (last, tok)) "nextPageToken" VNone)
      with (Return (A:=value) tok).
    cbn [mbind Dyn.result_bind mret Dyn.result_ret Dyn.iterate].
    destruct Hend as [-> | Hend]; [done|].
    apply Z.leb_le in Hend. rewrite Hend. by rewrite orb_true_r.
  - destruct fuel as [|fuel]; [cbn in Hf; lia|].
    apply Forall_cons in Htok as [Hp Htok].
    cbn [concat fmap list_fmap app] in Hlt, Hend, Hr |- *.
    assert (Z.of_nat (length all) < limit) as Hall.
    { rewrite !length_app in Hlt. lia. }
    cbn [pages_loop]. apply Z.ltb_lt in Hall. rewrite Hall.
    cbn [negb]. unfold Pages.serve at 1, Scripts.scripted at 1.
    unfold Pages.script in Hr. cbn [fmap list_fmap app] in Hr. rewrite Hr.
    fold (Pages.script pre) in Hr |- *.
    change (Dyn.get (Pages.response p) "studies" (VList []))
      with (Return (A:=value) (VList p.1)).
    change (Dyn.get (Pages.response p) "nextPageToken" VNone)
      with (Return (A:=value) p.2).
    cbn [mbind Dyn.result_bind mret Dyn.result_ret Dyn.iterate].
    rewrite Hp. cbn [negb orb].
    assert ((limit <=? Z.of_nat (length (all ++ p.1))) = false) as ->.
    { apply Z.leb_gt. rewrite length_app. rewrite !length_app in Hlt.
      lia. }
    rewrite (IH (all ++ p.1) fuel p.2
               {| now := now e; limiter := limiter e;
                  remote := Pages.script pre
                            ++ (Return (Pages.response (last, tok))
                                :: rest) |}); cbn [now limiter remote];
      [by rewrite <- !(assoc_L (++)) | done | by rewrite <- (assoc_L (++))
      | rewrite <- !(assoc_L (++)); by rewrite <- (assoc_L (++)) in Hend
      | done | cbn in Hf; lia].
Qed.

(** X20.  The pagination loop of [search_trials] collects the pages in
    the order the service sends them and stops at the first page without a
    next-page token, or as soon as it holds [max_results or 100] studies:
    it then returns the first that many of the studies of the pages it
    fetched, and has sent one request per fetched page. *)
Theorem pagination_collects_pages_in_order
    (qp : list (string * string)) (max_results : option Z)
    (pre : list (list value * value)) (last : list value) (tok : value)
    (rest : list (result value)) (fuel : nat)
    (e : Env (list (result value))) :
  let limit := Py.or_int max_results 100 in
  Forall (λ p, Dyn.truthy p.2 = true) pre →
  Z.of_nat (length (concat pre.*1)) < limit →
  Dyn.truthy tok = false
  ∨ limit ≤ Z.of_nat (length (concat pre.*1 ++ last)) →
  remote e = Pages.script pre ++ Return (Pages.response (last, tok)) :: rest →
  (length pre < fuel)%nat →
  _execute render (Pages.serve fallback) fuel qp max_results e
  = Some (Return (VDict [("studies",
                          VList (take (Z.to_nat limit)
                                   (concat pre.*1 ++ last)))]),
          {| now := now e; limiter := limiter e; remote := rest |}).
Proof.
  intros limit Htok Hlt Hend Hr Hf. unfold _execute. fold limit.
  rewrite (pages_loop_collects qp limit last tok rest pre [] fuel VNone e);
    [|done..].
  cbn. unfold Dyn.slice_to.
  destruct (0 <=? limit) eqn:Hl; [done|]. apply Z.leb_gt in Hl. lia.
Qed.

End PagedService.

Lemma pagination_ends_within_limit_witness :
  ∃ out,
    ClinicalTrials._execute (λ _, "")
      (λ _ _, Samples.always_return
                (Pages.response ([VStr "NCT1"; VStr "NCT2"], VStr "next")))
      3 [("query.term", "AREA[ConditionSearch]asthma")] (Some 3)
      (env (Samples.world ())) = Some out ∧
    ∀ v, out.1 = Return v →
      ∃ studies,
        v = VDict [("studies", VList studies)] ∧
        Z.of_nat (length studies) ≤ Z.max 0 (Py.or_int (Some 3) 100).
Proof.
  apply (pagination_ends_within_limit (λ _, "")
           (λ _ _, Samples.always_return
                     (Pages.response
                        ([VStr "NCT1"; VStr "NCT2"], VStr "next")))
           [("query.term", "AREA[ConditionSearch]asthma")] (Some 3) 3%nat
           (env (Samples.world ()))).
  - intros tok e resp e' [= <- _] studies items [= <-] [= <-]. done.
  - vm_compute. lia.
Defined.

Lemma pagination_spins_on_empty_pages_witness :
  ClinicalTrials._execute (λ _, "")
    (λ _ _, Samples.always_return (Pages.response ([], VStr "next")))
    1000 [("query.term", "AREA[ConditionSearch]asthma")] None
    (env (Samples.world ())) = None.
Proof.
  apply (pagination_spins_on_empty_pages (λ _, "")
           (λ _ _, Samples.always_return (Pages.response ([], VStr "next")))
           [("query.term", "AREA[ConditionSearch]asthma")] None 1000%nat
           (env (Samples.world ()))).
  - intros n [=].
  - intros tok e. by eexists _, _, _, _.
Defined.

Lemma pagination_collects_pages_in_order_witness :
  ClinicalTrials._execute (λ _, "")
    (Pages.serve (Raise Samples.connection_error)) 2
    [("query.term", "AREA[ConditionSearch]asthma")] (Some 5)
    (env (Samples.world
            (Pages.script [([VStr "NCT1"; VStr "NCT2"], VStr "next")]
             ++ [Return (Pages.response ([VStr "NCT3"], VNone))])))
  = Some (Return (VDict [("studies",
                          VList [VStr "NCT1"; VStr "NCT2"; VStr "NCT3"])]),
          env (Samples.world [])).
Proof.
  apply (pagination_collects_pages_in_order (λ _, "")
           (Raise Samples.connection_error)
           [("query.term", "AREA[ConditionSearch]asthma")] (Some 5)
           [([VStr "NCT1"; VStr "NCT2"], VStr "next")] [VStr "NCT3"] VNone
           [] 2%nat).
  - by repeat constructor.
  - vm_compute. reflexivity.
  - by left.
  - reflexivity.
  - cbn. lia.
Defined.

(** * [search_trials] and the cache *)

Section SearchProperties.
Import BaseTool ClinicalTrials.
Context {R : Type}.
Variable cfg : Settings.t.
Variable self : BaseTool.t.

(** A call that went to the service and succeeded with data leaves them
    under its key, dated by the clock at its end. *)
Lemma fetched_result_is_stored (method_name query : string)
    (func : list (string * scalar) → operation R value)
    (kwargs : list (string * scalar)) (w w' : World R) (r : ToolResult) :
  Settings.ENABLE_CACHE cfg = true →
  _execute_with_monitoring cfg self method_name query func kwargs w
  = (Return r, w') →
  calls w' ≠ calls w →
  success r = true →
  cache w' !! _get_cache_key method_name (("query", SStr query) :: kwargs)
  = Some (now (env w'), data r).
Proof.
  intros He Hc Hcalls Hs.
  destruct (get_from_cache_cases cfg
              (_get_cache_key method_name (("query", SStr query) :: kwargs))
              w) as [(t & v & _ & Hl & Hq & Hv & _) | (c' & Hg & _)].
  - destruct (envelope_hit cfg self method_name query func kwargs w t v
                He Hl Hq Hv) as (r0 & w0 & Hc0 & _ & _ & _ & Hn & _).
    rewrite Hc in Hc0. injection Hc0 as <- <-. done.
  - destruct (envelope_miss cfg self method_name query func kwargs w c' Hg)
      as (r0 & w0 & Hc0 & Henv & _ & _ & _ & Hout).
    rewrite Hc in Hc0. injection Hc0 as <- <-.
    rewrite He, <- Henv in Hout.
    destruct (func kwargs (env w)).1 as [raw|x];
      [destruct (parse_results self raw) as [v|x]|].
    + destruct Hout as [(_ & <- & _) ->]. apply lookup_insert_eq.
    + destruct Hout as [(Hf & _) _]. by rewrite Hs in Hf.
    + destruct Hout as [(Hf & _) _]. by rewrite Hs in Hf.
Qed.

(** X21.  The cache key of [search_trials] is made of the condition, the
    intervention and the status only.  So once a search has fetched its
    results, a later search for the same three within the time to live is
    answered with those results from the cache, without a request to the
    service, whatever phase, maximal number of results, sponsor and
    country it asks for. *)
Theorem search_trials_reuses_entry_across_filters
    (run run' : list (string * string) → option Z → operation R value)
    (condition intervention status phase phase' : option string)
    (max_results max_results' : option Z)
    (sponsor sponsor' country country' : option string)
    (d : Q) (w w1 : World R) (r1 : ToolResult) :
  Settings.ENABLE_CACHE cfg = true →
  (d < inject_Z (Settings.CACHE_TTL cfg))%Q →
  search_trials cfg self run condition intervention status phase
    max_results sponsor country w = (Return r1, w1) →
  calls w1 ≠ calls w →
  success r1 = true →
  data r1 ≠ VNone →
  ∃ r2 w2,
    search_trials cfg self run' condition intervention status phase'
      max_results' sponsor' country' (idle d w1) = (Return r2, w2) ∧
    success r2 = true ∧ data r2 = data r1 ∧
    (∃ m, metadata r2 = Some m ∧ m !! "cached" = Some (VBool true)) ∧
    calls w2 = calls w1 ∧ remote (env w2) = remote (env w1).
Proof.
  intros He Hd Hc Hcalls Hs Hdata. unfold search_trials in *.
  pose proof (fetched_result_is_stored _ _ _ _ _ _ _ He Hc Hcalls Hs)
    as Hstored.
  destruct (envelope_hit cfg self "search_trials"
              (query_str condition intervention status)
              (λ _, run' (query_params condition intervention status phase'
                            sponsor' country') max_results')
              [] (idle d w1) (now (env w1)) (data r1) He)
    as (r2 & w2 & Hc2 & (Hs2 & Hd2 & _ & m & Hm & Hflag & _) & Henv & _
        & Hn & _); [done| |done|].
  { apply fresh_lt. cbn [idle set_env env now]. lra. }
  exists r2, w2. rewrite Hc2, Henv. eauto 10.
Qed.

End SearchProperties.

Lemma search_trials_reuses_entry_across_filters_witness :
  ∃ r1 w1,
    ClinicalTrials.search_trials Settings.default Samples.passthrough_tool
      (λ _ _, Samples.always_return Samples.papers)
      (Some "asthma") None (Some "RECRUITING") (Some "PHASE3") None
      None None (Samples.world ()) = (Return r1, w1) ∧
    ∃ r2 w2,
      ClinicalTrials.search_trials Settings.default Samples.passthrough_tool
        (λ _ _, Samples.always_return (VList []))
        (Some "asthma") None (Some "RECRUITING") (Some "PHASE1") (Some 5)
        (Some "NIH") (Some "France") (idle 10 w1) = (Return r2, w2) ∧
      BaseTool.data r2 = Samples.papers ∧ calls w2 = 1%nat.
Proof.
  eexists _, _. split; [vm_compute; reflexivity|].
  edestruct (search_trials_reuses_entry_across_filters Settings.default
               Samples.passthrough_tool
               (λ _ _, Samples.always_return Samples.papers)
               (λ _ _, Samples.always_return (VList []))
               (Some "asthma") None (Some "RECRUITING") (Some "PHASE3")
               (Some "PHASE1") None (Some 5) None (Some "NIH") None
               (Some "France") 10%Q (Samples.world ()))
    as (r2 & w2 & Hc2 & _ & Hd & _ & Hn & _).
  - reflexivity.
  - reflexivity.
  - vm_compute. reflexivity.
  - vm_compute. discriminate.
  - reflexivity.
  - vm_compute. discriminate.
  - exists r2, w2. split; [exact Hc2|]. split; [exact Hd | exact Hn].
Defined.

(** * ChEMBL: parsing the answers *)

Section ChEMBLProperties.
Import BaseTool.
Variable render : value → string.

Lemma comprehension_raises {A B} (f : A → result B) (l : list A) (x : A) :
  x ∈ l → (∃ e, f x = Raise e) → ∃ e, Dyn.comprehension f l = Raise e.
Proof.
  intros Hx Hf. induction l as [|a l IH]; [by apply elem_of_nil in Hx|].
  cbn [Dyn.comprehension]. unfold mbind at 1, Dyn.result_bind at 1.
  destruct (f a) as [b|e] eqn:Ha; [|eauto].
  apply elem_of_cons in Hx as [-> | Hx].
  - destruct Hf as [e He]. congruence.
  - destruct (IH Hx) as [e ->]. eauto.
Qed.

Lemma comprehension_returns {A B} (f : A → result B) (l : list A) :
  Forall (λ x, ∃ y, f x = Return y) l →
  ∃ ys, Dyn.comprehension f l = Return ys ∧
        Forall2 (λ x y, f x = Return y) l ys.
Proof.
  induction 1 as [|x l [y Hy] _ (ys & Hys & Hall)].
  - exists []. by split.
  - exists (y :: ys). cbn [Dyn.comprehension]. rewrite Hy, Hys.
    split; [done|]. by constructor.
Qed.

(** A molecule whose [molecule_properties] are [null] cannot be parsed:
    the [None] that [get] answers has no [get] of its own. *)
Lemma parse_molecule_without_properties (fields : list (string * value)) :
  Dyn.assoc "molecule_properties" fields = Some VNone →
  ChEMBL._parse_molecule render (VDict fields)
  = Raise (Dyn.attribute_error VNone "get").
Proof.
  intros Hp. unfold ChEMBL._parse_molecule.
  cbn [Dyn.get mbind Dyn.result_bind]. by rewrite Hp.
Qed.

Context {R : Type}.
Variable cfg : Settings.t.
Variables method_name query : string.
Variable func : list (string * scalar) → operation R value.
Variable kwargs : list (string * scalar).

Let key := _get_cache_key method_name (("query", SStr query) :: kwargs).
Let call :=
  _execute_with_monitoring (R:=R) cfg (ChEMBL.tool render) method_name
    query func kwargs.

(** X22.  One molecule without properties fails the whole call: when the
    answer of the service lists molecules and one of them has
    [molecule_properties] set to [null], nothing of the answer is
    returned; the call ends as a failure and stores nothing. *)
Theorem molecule_without_properties_fails_the_call (w : World R)
    (fields mfields : list (string * value)) (molecules : list value)
    (e' : Env R) :
  cache w !! key = None →
  func kwargs (env w) = (Return (VDict fields), e') →
  Dyn.assoc "molecules" fields = Some (VList molecules) →
  VDict mfields ∈ molecules →
  Dyn.assoc "molecule_properties" mfields = Some VNone →
  ∃ r w' msg,
    call w = (Return r, w') ∧
    success r = false ∧ data r = VNone ∧ error r = Some msg ∧
    cache w' !! key = None.
Proof.
  intros Hmiss Hf Hm Hin Hp.
  destruct (get_from_cache_cases cfg key w) as
    [(t & v & _ & Hl & _) | (c' & Hg & Hc')]; [congruence|].
  destruct (envelope_miss cfg (ChEMBL.tool render) method_name query func
              kwargs w c' Hg)
    as (r & w' & Hc & _ & _ & _ & _ & Hout).
  fold call key in Hc, Hout. rewrite Hf in Hout. cbn [fst] in Hout.
  assert (∃ e, ChEMBL.parse_results render (VDict fields) = Raise e)
    as [e He].
  { unfold ChEMBL.parse_results, Dyn.has_key. rewrite Hm.
    rewrite bool_decide_eq_true_2 by eauto.
    unfold ChEMBL.parse_all, Dyn.get. rewrite Hm.
    cbn [from_option id mbind Dyn.result_bind Dyn.iterate].
    destruct (comprehension_raises (ChEMBL._parse_molecule render)
                molecules (VDict mfields) Hin) as [e ->]; [|eauto].
    rewrite parse_molecule_without_properties by done. eauto. }
  cbn [parse_results ChEMBL.tool] in Hout. rewrite He in Hout.
  destruct Hout as [(Hs & Hd & Herr & _) Hcache].
  exists r, w', (handle_errors e).
  split; [done|]. split; [done|]. split; [done|]. split; [done|].
  rewrite Hcache. destruct Hc' as [-> | ->]; [done|].
  apply lookup_delete_eq.
Qed.

End ChEMBLProperties.

Section ChEMBLIndications.
Variable render : value → string.

(** X23.  An answer that lists drug indications, and neither molecules
    nor targets, is parsed without an exception whenever the indications
    are dictionaries, whatever their fields: there is one record per
    indication, in the order of the answer, that carries the indication's
    [mesh_heading] as [indication] and its [parent_molecule_name] as
    [drug_name], or the empty string where the field is missing. *)
Theorem indications_parse_one_record_each
    (fields : list (string * value)) (items : list value) :
  Dyn.assoc "molecules" fields = None →
  Dyn.assoc "targets" fields = None →
  Dyn.assoc "drug_indications" fields = Some (VList items) →
  Forall (λ i, ∃ f, i = VDict f) items →
  ∃ parsed,
    ChEMBL.parse_results render (VDict fields) = Return (VList parsed) ∧
    Forall2 (λ i p,
               Dyn.get p "indication" VNone
                 = Dyn.get i "mesh_heading" (VStr "") ∧
               Dyn.get p "drug_name" VNone
                 = Dyn.get i "parent_molecule_name" (VStr ""))
      items parsed.
Proof.
  intros Hm Ht Hd Hitems.
  unfold ChEMBL.parse_results, Dyn.has_key. rewrite Hm, Ht, Hd.
  rewrite !(bool_decide_eq_false_2 (is_Some None)) by (by intros [? ?]).
  rewrite bool_decide_eq_true_2 by eauto.
  unfold ChEMBL.parse_all, Dyn.get at 1. rewrite Hd.
  cbn [from_option id mbind Dyn.result_bind Dyn.iterate].
  destruct (comprehension_returns ChEMBL._parse_drug_indication items)
    as (parsed & -> & Hall).
  { eapply Forall_impl; [exact Hitems|]. intros i [f ->]. by eexists. }
  exists parsed. split; [done|].
  eapply Forall2_impl; [exact Hall|]. cbn beta.
  intros i p Hp.
  assert (∃ f, i = VDict f) as [f ->].
  { destruct i; try discriminate Hp. eauto. }
  cbn in Hp. injection Hp as <-. by split.
Qed.

End ChEMBLIndications.

Lemma molecule_without_properties_fails_the_call_witness :
  ∃ r w' msg,
    BaseTool._execute_with_monitoring Settings.default
      (ChEMBL.tool (λ _, "")) "search_by_target" "EGFR"
      (λ _, Samples.always_return
              (VDict [("molecules",
                       VList [VDict [("molecule_chembl_id", VStr "CHEMBL1")];
                              VDict [("molecule_chembl_id", VStr "CHEMBL2");
                                     ("molecule_properties", VNone)]])]))
      [] (Samples.world ()) = (Return r, w') ∧
    BaseTool.success r = false ∧ BaseTool.data r = VNone ∧
    BaseTool.error r = Some msg ∧
    cache w' !! BaseTool._get_cache_key "search_by_target"
                  [("query", SStr "EGFR")] = None.
Proof.
  eapply (molecule_without_properties_fails_the_call (λ _, "")
            Settings.default "search_by_target" "EGFR"
            (λ _, Samples.always_return
                    (VDict [("molecules",
                             VList [VDict [("molecule_chembl_id",
                                            VStr "CHEMBL1")];
                                    VDict [("molecule_chembl_id",
                                            VStr "CHEMBL2");
                                           ("molecule_properties",
                                            VNone)]])]))
            [] (Samples.world ())).
  - apply lookup_empty.
  - reflexivity.
  - reflexivity.
  - apply elem_of_cons. right. apply elem_of_cons. by left.
  - reflexivity.
Defined.

Lemma indications_parse_one_record_each_witness :
  ∃ parsed,
    ChEMBL.parse_results (λ _, "")
      (VDict [("drug_indications",
               VList [VDict [("mesh_heading", VStr "Asthma");
                             ("parent_molecule_name", VStr "SALBUTAMOL")];
                      VDict []])])
    = Return (VList parsed) ∧
    Forall2 (λ i p,
               Dyn.get p "indication" VNone
                 = Dyn.get i "mesh_heading" (VStr "") ∧
               Dyn.get p "drug_name" VNone
                 = Dyn.get i "parent_molecule_name" (VStr ""))
      [VDict [("mesh_heading", VStr "Asthma");
              ("parent_molecule_name", VStr "SALBUTAMOL")];
       VDict []]
      parsed.
Proof.
  apply (indications_parse_one_record_each (λ _, "")
           [("drug_indications",
             VList [VDict [("mesh_heading", VStr "Asthma");
                           ("parent_molecule_name", VStr "SALBUTAMOL")];
                    VDict []])]).
  - reflexivity.
  - reflexivity.
  - reflexivity.
  - repeat constructor; by eexists.
Defined.

(** * PubMed: a search that finds nothing *)

Section PubMedProperties.
Import BaseTool.
Context {R : Type}.
Variable cfg : Settings.t.
Variable pubmed : PubMed.settings.
Variable render : value → string.
Variable parse_articles : string → result value.
Variable days_before : Q → Z → string.
Variable _search_ids :
  string → Z → option string → option string → operation R value.
Variable _fetch_details : value → operation R value.


End PubMedProperties.

